(** * Financial Q&A agent: query understanding and retrieval orchestration

    A shallow embedding of the decision logic of the repository:

    - [QueryProcessor] (src/agents/orchestrator.py): [preprocess_query],
      [validate_query];
    - [QueryClassifier] and [QueryDecomposer]
      (src/agents/query_classifier.py);
    - [RetrievalEngine] (src/rag/vector_store.py): the hybrid,
      company-focused and temporal strategies;
    - [ResultSynthesizer] (src/agents/synthesizer.py): [_prepare_context],
      [_extract_meaningful_excerpt], [_extract_sources];
    - [FinancialQAAgent.answer_query] and [process_single_query] (main.py).

    Modelling conventions.
    - A Python [str] is a [string]; the embedding covers ASCII text, so
      [lower], [title], [isspace] and the regex classes [\w], [\d], [\s] are
      the ASCII ones (a byte above 127 is an uncased, non-space, non-word
      character).
    - A Python [int] is a [Z]; [//] is floor division and raises on zero.
    - A Python [float] is idealised as a rational ([Q]).
    - The vector index and the generative model are collaborators: they
      are fields of a [World] record, each a deterministic oracle that
      returns a value or raises.
    - Calls to collaborators, and the entries of the Classifier and of the
      Synthesizer, are recorded in a trace, so that "is issued" and "is
      never invoked" are statements about that trace.
    - [console.print] output is not modelled. *)

From Stdlib Require Import Ascii QArith Lqa.
From stdpp Require Import base gmap strings list sorting pretty.

Local Open Scope Z_scope.

(** ** Python string primitives (ASCII) *)

Module Py.

Definition code (c : ascii) : nat := nat_of_ascii c.

(** [str.isspace] on one character: TAB, LF, VT, FF, CR, FS, GS, RS, US
    and the space. *)
Definition is_space (c : ascii) : bool :=
  let n := code c in
  ((9 <=? n)%nat && (n <=? 13)%nat) || ((28 <=? n)%nat && (n <=? 32)%nat).

Definition is_upper (c : ascii) : bool :=
  let n := code c in (65 <=? n)%nat && (n <=? 90)%nat.

Definition is_lower (c : ascii) : bool :=
  let n := code c in (97 <=? n)%nat && (n <=? 122)%nat.

Definition is_digit (c : ascii) : bool :=
  let n := code c in (48 <=? n)%nat && (n <=? 57)%nat.

Definition is_cased (c : ascii) : bool := is_upper c || is_lower c.

(** The regex class [\w]. *)
Definition is_word (c : ascii) : bool :=
  is_cased c || is_digit c || (code c =? 95)%nat.

Definition lower_char (c : ascii) : ascii :=
  if is_upper c then ascii_of_nat (code c + 32) else c.

Definition upper_char (c : ascii) : ascii :=
  if is_lower c then ascii_of_nat (code c - 32) else c.

Fixpoint map_chars (f : ascii → ascii) (s : string) : string :=
  match s with
  | EmptyString => EmptyString
  | String c s' => String (f c) (map_chars f s')
  end.

(** [s.lower()] *)
Definition lower : string → string := map_chars lower_char.

(** [s.upper()] *)
Definition upper : string → string := map_chars upper_char.

(** [s.title()]: a cased character is upper-cased when the character
    before it is not cased, lower-cased otherwise. *)
Fixpoint title_go (previous_is_cased : bool) (s : string) : string :=
  match s with
  | EmptyString => EmptyString
  | String c s' =>
      let c' := if previous_is_cased then lower_char c else upper_char c in
      String c' (title_go (is_cased c') s')
  end.

Definition title : string → string := title_go false.

(** [len(s)] *)
Definition len (s : string) : Z := Z.of_nat (String.length s).

(** [s.lstrip()], [s.rstrip()], [s.strip()] *)
Fixpoint lstrip (s : string) : string :=
  match s with
  | EmptyString => EmptyString
  | String c s' => if is_space c then lstrip s' else s
  end.

Definition rstrip (s : string) : string :=
  String.rev (lstrip (String.rev s)).

Definition strip (s : string) : string := lstrip (rstrip s).

(** The string does not start with white space. *)
Definition no_leading_space (s : string) : bool :=
  match s with
  | EmptyString => true
  | String c _ => negb (is_space c)
  end.

(** [s.startswith(p)] *)
Fixpoint startswith (p s : string) : bool :=
  match p, s with
  | EmptyString, _ => true
  | String _ _, EmptyString => false
  | String a p', String b s' => bool_decide (a = b) && startswith p' s'
  end.

(** [needle in hay] *)
Fixpoint contains (needle hay : string) : bool :=
  startswith needle hay ||
  match hay with
  | EmptyString => false
  | String _ hay' => contains needle hay'
  end.

(** [sep.join(l)] *)
Fixpoint join (sep : string) (l : list string) : string :=
  match l with
  | [] => EmptyString
  | [w] => w
  | w :: ws => w +:+ sep +:+ join sep ws
  end.

(** [s.split()]: the maximal runs of non-space characters. *)
Fixpoint split (s : string) : list string :=
  match s with
  | EmptyString => []
  | String c s' =>
      if is_space c then split s'
      else
        match s' with
        | EmptyString => [String c EmptyString]
        | String c' _ =>
            if is_space c' then String c EmptyString :: split s'
            else
              match split s' with
              | w :: ws => String c w :: ws
              | [] => [String c EmptyString]
              end
        end
  end.

(** [s.split(sep)] for a one-character separator: never empty. *)
Fixpoint split_on (sep : ascii) (s : string) : list string :=
  match s with
  | EmptyString => [EmptyString]
  | String c s' =>
      if bool_decide (c = sep) then EmptyString :: split_on sep s'
      else
        match split_on sep s' with
        | w :: ws => String c w :: ws
        | [] => [String c EmptyString]
        end
  end.

(** [s[:n]] for [n >= 0] *)
Fixpoint take (n : nat) (s : string) : string :=
  match n, s with
  | O, _ => EmptyString
  | S _, EmptyString => EmptyString
  | S n', String c s' => String c (take n' s')
  end.

Fixpoint drop (n : nat) (s : string) : string :=
  match n, s with
  | O, _ => s
  | S _, EmptyString => EmptyString
  | S n', String _ s' => drop n' s'
  end.

(** [s.replace(old, new)]: every non-overlapping occurrence, left to
    right.  [skip] counts the characters of a matched occurrence still to
    be dropped.  With an empty [old], [new] is put before every character
    and at the end. *)
Fixpoint replace_go (old new : string) (skip : nat) (s : string) : string :=
  match s with
  | EmptyString => EmptyString
  | String c s' =>
      match skip with
      | S k => replace_go old new k s'
      | O =>
          if startswith old s
          then new +:+ replace_go old new (String.length old - 1) s'
          else String c (replace_go old new O s')
      end
  end.

Fixpoint intersperse (new : string) (s : string) : string :=
  match s with
  | EmptyString => new
  | String c s' => new +:+ String c (intersperse new s')
  end.

Definition replace (old new s : string) : string :=
  match old with
  | EmptyString => intersperse new s
  | _ => replace_go old new O s
  end.

(** [lst[:n]] on a list, for any integer [n] (a negative [n] counts from
    the end). *)
Definition slice_to {A} (n : Z) (l : list A) : list A :=
  if 0 <=? n then list.take (Z.to_nat n) l
  else list.take (Z.to_nat (Z.of_nat (length l) + n)) l.

End Py.

(** ** Exceptions, traces and the collaborators *)

(** The exceptions the modelled code can meet. *)
Inductive exn :=
  | ZeroDivisionError
  | TypeError (msg : string)
  | ExternalError (msg : string).

(** [str(e)] *)
Definition exn_message (e : exn) : string :=
  match e with
  | ZeroDivisionError => "integer division or modulo by zero"
  | TypeError msg => msg
  | ExternalError msg => msg
  end.

Inductive outcome (A : Type) :=
  | Ret (a : A)
  | Raise (e : exn).
Arguments Ret {A} a.
Arguments Raise {A} e.

(** Calls that leave a mark in the trace: the entry of the Classifier and of
    the Synthesizer, every query sent to the vector index, and every call of
    the generative model. *)
Inductive event :=
  | EvClassify (query : string)
  | EvGenerate (purpose : string) (query : string)
  | EvSearch (query : string) (n_results : Z) (filters : gmap string string)
  | EvSynthesize (query : string) (sub_queries : list string).

#[global] Instance event_eq_dec : EqDecision event.
Proof. solve_decision. Defined.

(** A computation: the calls it made, in order, and how it ended. *)
Definition M (A : Type) : Type := list event * outcome A.

#[global] Instance M_ret : MRet M := λ A a, ([], Ret a).

#[global] Instance M_bind : MBind M := λ A B f m,
  match m.2 with
  | Ret a => let r := f a in (m.1 ++ r.1, r.2)
  | Raise e => (m.1, Raise e)
  end.

Definition raise {A} (e : exn) : M A := ([], Raise e).

Definition emit (ev : event) : M unit := ([ev], Ret tt).

(** Calling a collaborator: the call is recorded, then its outcome is the
    outcome of the computation. *)
Definition call {A} (ev : event) (o : outcome A) : M A := ([ev], o).

(** [try: m except Exception as e: h e] *)
Definition try_except {A} (m : M A) (h : exn → M A) : M A :=
  match m.2 with
  | Ret a => m
  | Raise e => let r := h e in (m.1 ++ r.1, r.2)
  end.

(** [for x in l: acc = body acc x], threading the loop state. *)
Fixpoint for_fold {A S} (l : list A) (body : S → A → M S) (acc : S) : M S :=
  match l with
  | [] => mret acc
  | x :: l' => body acc x ≫= for_fold l' body
  end.

(** [a // b] on integers. *)
Definition floordiv (a b : Z) : M Z :=
  if bool_decide (b = 0) then raise ZeroDivisionError else mret (a `div` b).

(** ** Data *)

Inductive QueryType :=
  | SIMPLE_DIRECT
  | COMPARATIVE_YOY
  | CROSS_COMPANY
  | COMPLEX_MULTI_ASPECT
  | SEGMENT_ANALYSIS.

#[global] Instance QueryType_eq_dec : EqDecision QueryType.
Proof. solve_decision. Defined.

(** [QueryType.value] *)
Definition value (t : QueryType) : string :=
  match t with
  | SIMPLE_DIRECT => "simple_direct"
  | COMPARATIVE_YOY => "comparative_yoy"
  | CROSS_COMPANY => "cross_company"
  | COMPLEX_MULTI_ASPECT => "complex_multi_aspect"
  | SEGMENT_ANALYSIS => "segment_analysis"
  end.

(** Iteration order of [for query_type in QueryType]. *)
Definition all_query_types : list QueryType :=
  [SIMPLE_DIRECT; COMPARATIVE_YOY; CROSS_COMPANY; COMPLEX_MULTI_ASPECT;
   SEGMENT_ANALYSIS].

(** The [classification_info] dictionary.  A field is [None] when the key is
    absent, so that [info.get(key, default)] is [default (field info)].
    [classify_query] sets every key. *)
Record ClassificationInfo := {
  ci_type : option QueryType;
  ci_companies : option (list string);
  ci_years : option (list Z);
  ci_metrics : option (list string);
  ci_complexity_score : option Z
}.

Definition well_formed (info : ClassificationInfo) : Prop :=
  is_Some (ci_type info) ∧ is_Some (ci_companies info) ∧
  is_Some (ci_years info) ∧ is_Some (ci_metrics info) ∧
  is_Some (ci_complexity_score info).

(** One formatted result of [FinancialVectorStore.search].  The [metadata]
    sub-dictionary repeats company, year and section and is read by none of
    the functions below; [keyword_boost] is the key the hybrid strategy
    adds. *)
Record Hit := {
  text : string;
  company : string;
  year : Z;
  section : string;
  distance : Q;
  keyword_boost : option Z
}.

(** The [answer_data] dictionary of [_get_llm_response]. *)
Record AnswerData := {
  ad_answer : option string;
  ad_reasoning : option string;
  ad_confidence : option string
}.

Record SourceCitation := {
  src_company : string;
  src_year : Z;
  src_excerpt : string;
  src_section : string;
  relevance_score : Q
}.

(** The response dictionary returned to the caller. *)
Record Response := {
  r_query : string;
  r_answer : string;
  r_reasoning : string;
  r_sub_queries : list string;
  r_sources : list SourceCitation;
  r_confidence : string
}.

(** The collaborators.
    - [w_search query n_results filters]: [FinancialVectorStore.search]
      (embedding of the query, index lookup, formatting of the hits);
    - [w_llm_classify query]: the text answered to the prompt of
      [_classify_with_llm], which is built from the query;
    - [w_llm_decompose query companies years metrics]: the text answered to
      the prompt of [_decompose_complex_query], which is built from these
      four values;
    - [w_llm_response template query joined_sub_queries context]: what
      [_get_llm_response] makes of the prompt that the named template builds
      from these values; it catches every exception itself. *)
Record World := {
  w_search : string → Z → gmap string string → outcome (list Hit);
  w_llm_classify : string → outcome string;
  w_llm_decompose :
    string → list string → list Z → list string → outcome string;
  w_llm_response : string → string → string → string → AnswerData
}.

(** [x or y] on lists. *)
Definition list_or {A} (l d : list A) : list A :=
  match l with
  | [] => d
  | _ => l
  end.

(** [d[k] = v] on a dictionary kept as its items in insertion order: a key
    already present keeps its place. *)
Fixpoint dict_set {V} (k : string) (v : V) (d : list (string * V))
  : list (string * V) :=
  match d with
  | [] => [(k, v)]
  | (k', v') :: d' =>
      if bool_decide (k' = k) then (k, v) :: d' else (k', v') :: dict_set k v d'
  end.

(** ** QueryProcessor (src/agents/orchestrator.py) *)

Definition replacements : list (string * string) :=
  [("alphabet", "google"); ("googl", "google"); ("msft", "microsoft");
   ("nvda", "nvidia")].

Definition company_names : list string := ["google"; "microsoft"; "nvidia"].

(** [preprocess_query], with the replacement table as a parameter.  The
    lower-cased copy [query_lower] is rewritten with the table and never
    read again. *)
Definition preprocess_query_with (table : list (string * string))
    (query : string) : string :=
  let query := Py.strip query in
  let query_lower :=
    foldl (λ acc '(old, new), Py.replace old new acc) (Py.lower query) table in
  let words := Py.split query in
  let processed_words :=
    List.map (λ word,
      let word_lower := Py.lower word in
      if bool_decide (word_lower ∈ company_names) then Py.title word_lower
      else word) words in
  Py.join " " processed_words.

Definition preprocess_query : string → string :=
  preprocess_query_with replacements.

Definition validation_keywords : list string :=
  ["revenue"; "income"; "profit"; "sales"; "margin"; "earnings";
   "financial"; "money"; "dollar"; "billion"; "million"; "growth";
   "year"; "annual"; "quarterly"; "fiscal"; "operating"; "net"].

Definition has_financial_keyword (query : string) : bool :=
  let query_lower := Py.lower query in
  List.existsb (λ keyword, Py.contains keyword query_lower) validation_keywords.

Definition msg_too_short : string := "Query too short".
Definition msg_too_long : string := "Query too long".
Definition msg_not_financial : string :=
  "Query doesn't appear to be financial-related".
Definition msg_valid : string := "Valid query".

Definition validate_query (query : string) : bool * string :=
  if Py.len (Py.strip query) <? 5 then (false, msg_too_short)
  else if 500 <? Py.len query then (false, msg_too_long)
  else if negb (has_financial_keyword query) then (false, msg_not_financial)
  else (true, msg_valid).

(** ** Regular expressions of the classifier

    The patterns of [QueryClassifier.patterns] use literals, alternation,
    [.+] and [\d{4}] only; [re.search] with [re.IGNORECASE] asks whether
    some substring of the text is in the language of the pattern. *)

Inductive regex :=
  | RVoid
  | REps
  | RChar (c : ascii)
  | RAny
  | RDigit
  | RAlt (r1 r2 : regex)
  | RSeq (r1 r2 : regex)
  | RStar (r : regex).

Fixpoint nullable (r : regex) : bool :=
  match r with
  | RVoid | RChar _ | RAny | RDigit => false
  | REps | RStar _ => true
  | RAlt r1 r2 => nullable r1 || nullable r2
  | RSeq r1 r2 => nullable r1 && nullable r2
  end.

(** The derivative of [r] by the character [x]; a literal matches in either
    case, [.] matches everything but the line feed. *)
Fixpoint deriv (x : ascii) (r : regex) : regex :=
  match r with
  | RVoid | REps => RVoid
  | RChar c =>
      if bool_decide (Py.lower_char x = Py.lower_char c) then REps else RVoid
  | RAny => if bool_decide (x = "010"%char) then RVoid else REps
  | RDigit => if Py.is_digit x then REps else RVoid
  | RAlt r1 r2 => RAlt (deriv x r1) (deriv x r2)
  | RSeq r1 r2 =>
      if nullable r1 then RAlt (RSeq (deriv x r1) r2) (deriv x r2)
      else RSeq (deriv x r1) r2
  | RStar r1 => RSeq (deriv x r1) (RStar r1)
  end.

(** Some prefix of [s] is in the language of [r]. *)
Fixpoint match_prefix (r : regex) (s : string) : bool :=
  nullable r ||
  match s with
  | EmptyString => false
  | String c s' => match_prefix (deriv c r) s'
  end.

(** [re.search(r, s, re.IGNORECASE)] as a truth value. *)
Fixpoint re_search (r : regex) (s : string) : bool :=
  match_prefix r s ||
  match s with
  | EmptyString => false
  | String _ s' => re_search r s'
  end.

Fixpoint lit (s : string) : regex :=
  match s with
  | EmptyString => REps
  | String c s' => RSeq (RChar c) (lit s')
  end.

Definition alts (l : list string) : regex :=
  foldr (λ s r, RAlt (lit s) r) RVoid l.

Definition seqs (l : list regex) : regex := foldr RSeq REps l.

(** [.+] *)
Definition any_plus : regex := RSeq RAny (RStar RAny).

(** [\d{4}] *)
Definition year4 : regex := seqs [RDigit; RDigit; RDigit; RDigit].

Definition patterns : list (QueryType * list regex) :=
  [ (SIMPLE_DIRECT,
      [ seqs [lit "what "; alts ["was"; "is"]; lit " "; any_plus; lit " ";
              alts ["revenue"; "income"; "profit"; "margin"]];
        seqs [alts ["revenue"; "income"; "sales"; "profit"]; lit " ";
              any_plus; lit " "; alts ["in"; "for"]; lit " "; year4];
        seqs [lit "total "; any_plus; lit " "; year4] ]);
    (COMPARATIVE_YOY,
      [ seqs [alts ["grow"; "growth"; "increase"; "decrease"; "change"];
              lit " "; any_plus; lit " from "; year4; lit " to "; year4];
        seqs [lit "compare "; any_plus; lit " "; year4; lit " ";
              alts ["and"; "to"; "vs"]; lit " "; year4];
        alts ["year over year"; "yoy"; "annually"] ]);
    (CROSS_COMPANY,
      [ seqs [lit "which company "; any_plus; lit " ";
              alts ["highest"; "lowest"; "best"; "worst"]];
        seqs [lit "compare "; any_plus; lit " "; alts ["across"; "between"];
              lit " "; any_plus; lit " ";
              alts ["companies"; "google"; "microsoft"; "nvidia"]];
        seqs [alts ["google"; "microsoft"; "nvidia"]; lit " "; any_plus;
              lit " "; alts ["vs"; "versus"; "compared to"]] ]);
    (SEGMENT_ANALYSIS,
      [ seqs [lit "percentage of "; any_plus; lit " revenue"];
        seqs [lit "what portion "; any_plus; lit " came from"];
        seqs [lit "breakdown "; any_plus; lit " by segment"] ]) ].

(** ** QueryClassifier (src/agents/query_classifier.py) *)

Definition company_aliases : list (string * list string) :=
  [("google", ["google"; "googl"; "alphabet"]);
   ("microsoft", ["microsoft"; "msft"]);
   ("nvidia", ["nvidia"; "nvda"])].

(** [_extract_companies]: the membership test is on the lower-case canonical
    name, the name appended is its upper-case form. *)
Definition extract_companies (query : string) : list string :=
  foldl (λ companies '(canonical_name, aliases),
    foldl (λ companies alias,
      if Py.contains alias query
      then if bool_decide (canonical_name ∉ companies)
           then companies ++ [Py.upper canonical_name]
           else companies
      else companies) companies aliases) [] company_aliases.

Definition head_is_word (s : string) : bool :=
  match s with
  | EmptyString => false
  | String c _ => Py.is_word c
  end.

(** The pattern [20\\d{2}] followed by a word boundary, at the head of [s]. *)
Definition year_at_head (s : string) : bool :=
  match s with
  | String "2" (String "0" (String d1 (String d2 rest))) =>
      Py.is_digit d1 && Py.is_digit d2 && negb (head_is_word rest)
  | _ => false
  end.

(** [re.findall(r'\\b(20\\d{2})\\b', query)]: a left-to-right scan for
    non-overlapping matches; [prev_is_word] tells whether the character
    before the head is a word character, [skip] counts the characters of the
    last match still to be passed. *)
Fixpoint findall_years (prev_is_word : bool) (skip : nat) (s : string)
  : list string :=
  match s with
  | EmptyString => []
  | String c s' =>
      match skip with
      | S k => findall_years (Py.is_word c) k s'
      | O =>
          if negb prev_is_word && year_at_head s
          then Py.take 4 s :: findall_years (Py.is_word c) 3 s'
          else findall_years (Py.is_word c) O s'
      end
  end.

(** [int(s)] for a string of decimal digits. *)
Definition int_of_digits (s : string) : Z :=
  foldl (λ acc c, 10 * acc + (Z.of_nat (Py.code c) - 48)) 0
        (String.list_ascii_of_string s).

(** [_extract_years] *)
Definition extract_years (query : string) : list Z :=
  let year_matches := findall_years false O query in
  let years :=
    List.filter (λ year, (2020 <=? year) && (year <=? 2025))
                (List.map int_of_digits year_matches) in
  merge_sort Z.le (remove_dups years).

Definition metric_keywords : list string :=
  ["revenue"; "sales"; "income"; "earnings"; "profit"; "margin";
   "operating margin"; "gross margin"; "net income"; "ebitda";
   "cash flow"; "assets"; "liabilities"; "equity"; "expenses";
   "r&d"; "research and development"; "capex"; "operating expenses"].

(** [_extract_metrics] *)
Definition extract_metrics (query : string) : list string :=
  List.filter (λ metric, Py.contains metric query) metric_keywords.

(** [_classify_by_patterns] *)
Fixpoint first_matching (table : list (QueryType * list regex))
    (query : string) : option QueryType :=
  match table with
  | [] => None
  | (query_type, pats) :: table' =>
      if List.existsb (λ pattern, re_search pattern query) pats
      then Some query_type
      else first_matching table' query
  end.

Definition classify_by_patterns (query : string) : option QueryType :=
  first_matching patterns query.

(** [_classify_with_llm]: any exception of the model call gives the
    fallback type. *)
Definition classify_with_llm (w : World) (query : string) : M QueryType :=
  try_except
    (text ← call (EvGenerate "classification" query) (w_llm_classify w query);
     let classification := Py.upper (Py.strip text) in
     mret (default COMPLEX_MULTI_ASPECT
             (List.find (λ query_type,
                 bool_decide (Py.upper (value query_type) = classification))
               all_query_types)))
    (λ _, mret COMPLEX_MULTI_ASPECT).

Definition complex_keywords : list string :=
  ["compare"; "growth"; "change"; "ratio"; "percentage"; "breakdown"].

(** [_calculate_complexity] *)
Definition calculate_complexity (query : string) (companies : list string)
    (years : list Z) (metrics : list string) : Z :=
  let score := 1 in
  let score :=
    if 1 <? Z.of_nat (length companies)
    then score + Z.of_nat (length companies) else score in
  let score :=
    if 1 <? Z.of_nat (length years)
    then score + Z.of_nat (length years) else score in
  let score :=
    if 1 <? Z.of_nat (length metrics)
    then score + Z.of_nat (length metrics) else score in
  foldl (λ score keyword,
    if Py.contains keyword query then score + 1 else score)
    score complex_keywords.

(** [classify_query] *)
Definition classify_query (w : World) (query : string)
  : M (QueryType * ClassificationInfo) :=
  emit (EvClassify query) ≫= λ _,
  let query_lower := Py.lower query in
  let companies := extract_companies query_lower in
  let years := extract_years query_lower in
  let metrics := extract_metrics query_lower in
  query_type ←
    match classify_by_patterns query_lower with
    | Some query_type => mret query_type
    | None => classify_with_llm w query
    end;
  mret (query_type,
        {| ci_type := Some query_type;
           ci_companies := Some companies;
           ci_years := Some years;
           ci_metrics := Some metrics;
           ci_complexity_score :=
             Some (calculate_complexity query_lower companies years metrics) |}).

(** ** QueryDecomposer (src/agents/query_classifier.py) *)

Definition all_companies : list string := ["GOOGL"; "MSFT"; "NVDA"].

(** The f-string [{company} {metric} {year}]. *)
Definition fmt_sub_query (company metric : string) (year : Z) : string :=
  company +:+ " " +:+ metric +:+ " " +:+ pretty year.

(** [_decompose_yoy_query] *)
Definition decompose_yoy_query (query : string) (info : ClassificationInfo)
  : list string :=
  let companies := default [] (ci_companies info) in
  let years := default [] (ci_years info) in
  let metrics := default [] (ci_metrics info) in
  let companies := list_or companies all_companies in
  let sub_queries :=
    if 2 <=? Z.of_nat (length years)
    then
      List.flat_map (λ company,
        List.flat_map (λ metric,
          List.map (λ year, fmt_sub_query company metric year) years)
          (list_or metrics ["revenue"])) companies
    else [] in
  list_or sub_queries [query].

(** [years[0] if years else 2023] *)
Definition target_year (years : list Z) : Z :=
  match years with
  | y :: _ => y
  | [] => 2023
  end.

(** [_decompose_cross_company_query] *)
Definition decompose_cross_company_query (query : string)
    (info : ClassificationInfo) : list string :=
  let companies := default all_companies (ci_companies info) in
  let years := default [] (ci_years info) in
  let metrics := default [] (ci_metrics info) in
  let target_year := target_year years in
  List.flat_map (λ company,
    List.map (λ metric, fmt_sub_query company metric target_year)
      (list_or metrics ["operating margin"])) companies.

Fixpoint drop_digits (s : string) : string :=
  match s with
  | EmptyString => EmptyString
  | String c s' => if Py.is_digit c then drop_digits s' else s
  end.

(** [re.sub(r'^\\d+\\.\\s*', '', line)] *)
Definition strip_numbering (line : string) : string :=
  match line with
  | String c _ =>
      if Py.is_digit c
      then match drop_digits line with
           | String "." rest => Py.lstrip rest
           | _ => line
           end
      else line
  | EmptyString => line
  end.

(** [re.sub(r'^-\\s*', '', line)] *)
Definition strip_dash (line : string) : string :=
  match line with
  | String "-" rest => Py.lstrip rest
  | _ => line
  end.

(** The loop over the lines of the model's answer. *)
Definition parse_sub_queries (sub_queries_text : string) : list string :=
  List.flat_map (λ line,
    let line := Py.strip line in
    if negb (bool_decide (line = EmptyString)) && negb (Py.startswith "Sub-queries" line)
    then [Py.strip (strip_dash (strip_numbering line))]
    else [])
    (Py.split_on "010" sub_queries_text).

(** [_decompose_complex_query] *)
Definition decompose_complex_query (w : World) (query : string)
    (info : ClassificationInfo) : M (list string) :=
  try_except
    (text ← call (EvGenerate "decomposition" query)
              (w_llm_decompose w query (default [] (ci_companies info))
                 (default [] (ci_years info)) (default [] (ci_metrics info)));
     let sub_queries := parse_sub_queries (Py.strip text) in
     mret (list_or sub_queries [query]))
    (λ _, mret [query]).

(** [_decompose_segment_query] *)
Definition decompose_segment_query (query : string)
    (info : ClassificationInfo) : list string :=
  let companies := default [] (ci_companies info) in
  let years := default [] (ci_years info) in
  let companies :=
    match companies with
    | [] =>
        if Py.contains "google" (Py.lower query) then ["GOOGL"]
        else if Py.contains "microsoft" (Py.lower query) then ["MSFT"]
        else if Py.contains "nvidia" (Py.lower query) then ["NVDA"]
        else all_companies
    | _ => companies
    end in
  let target_year := target_year years in
  List.flat_map (λ company,
    [company +:+ " total revenue " +:+ pretty target_year;
     company +:+ " segment revenue breakdown " +:+ pretty target_year])
    companies.

(** [decompose_query] *)
Definition decompose_query (w : World) (query : string)
    (query_type : QueryType) (info : ClassificationInfo) : M (list string) :=
  match query_type with
  | SIMPLE_DIRECT => mret [query]
  | COMPARATIVE_YOY => mret (decompose_yoy_query query info)
  | CROSS_COMPANY => mret (decompose_cross_company_query query info)
  | COMPLEX_MULTI_ASPECT => decompose_complex_query w query info
  | SEGMENT_ANALYSIS => mret (decompose_segment_query query info)
  end.

(** ** FinancialVectorStore and RetrievalEngine (src/rag/vector_store.py) *)

(** [FinancialVectorStore.search]: one query sent to the index. *)
Definition search (w : World) (query : string) (n_results : Z)
    (filters : gmap string string) : M (list Hit) :=
  call (EvSearch query n_results filters) (w_search w query n_results filters).

(** The [filters] dictionary of [search_by_company_year]: an absent or empty
    company and an absent or zero year add no key. *)
Definition company_year_filters (company : option string) (year : option Z)
  : gmap string string :=
  let filters : gmap string string := ∅ in
  let filters :=
    match company with
    | Some c => if bool_decide (c = EmptyString) then filters else <["company" := c]> filters
    | None => filters
    end in
  match year with
  | Some y => if bool_decide (y = 0) then filters else <["year" := pretty y]> filters
  | None => filters
  end.

(** [search_by_company_year] *)
Definition search_by_company_year (w : World) (query : string)
    (company : option string) (year : option Z) (n_results : Z)
  : M (list Hit) :=
  search w query n_results (company_year_filters company year).

(** [list.sort(key=lambda x: x["distance"])]: a stable sort, ascending. *)
Fixpoint insert_by_distance (x : Hit) (l : list Hit) : list Hit :=
  match l with
  | [] => [x]
  | y :: l' =>
      if Qle_bool (distance x) (distance y) then x :: l
      else y :: insert_by_distance x l'
  end.

Definition sort_by_distance (l : list Hit) : list Hit :=
  foldr insert_by_distance [] l.

(** [_semantic_search] *)
Definition semantic_search (w : World) (query : string) (n_results : Z)
  : M (list Hit) :=
  search w query n_results ∅.

Definition financial_keywords : list string :=
  ["revenue"; "income"; "profit"; "margin"; "earnings"; "sales"].

(** The number of keywords present both in the query and in the text. *)
Definition keyword_matches (query_lower text_lower : string) : Z :=
  Z.of_nat (length (List.filter (λ keyword,
    Py.contains keyword query_lower && Py.contains keyword text_lower)
    financial_keywords)).

(** The distance after [k] keyword matches. *)
Definition adjusted_distance (d : Q) (k : Z) : Q :=
  (d * (1 - (1 # 10) * inject_Z k))%Q.

(** The body of the loop of [_hybrid_search] on one result. *)
Definition boost (query_lower : string) (result : Hit) : Hit :=
  let text_lower := Py.lower (text result) in
  let keyword_matches := keyword_matches query_lower text_lower in
  if 0 <? keyword_matches
  then {| text := text result; company := company result;
          year := year result; section := section result;
          distance := adjusted_distance (distance result) keyword_matches;
          keyword_boost := Some keyword_matches |}
  else result.

(** [_hybrid_search] *)
Definition hybrid_search (w : World) (query : string) (n_results : Z)
  : M (list Hit) :=
  semantic_results ← search w query n_results ∅;
  let query_lower := Py.lower query in
  mret (sort_by_distance (List.map (boost query_lower) semantic_results)).

(** [_company_focused_search] *)
Definition company_focused_search (w : World) (query : string)
    (companies : list string) (n_results : Z) : M (list Hit) :=
  all_results ←
    for_fold companies (λ all_results company,
      k ← floordiv n_results (Z.of_nat (length companies));
      company_results ←
        search_by_company_year w query (Some company) None (k + 1);
      mret (all_results ++ company_results)) [];
  mret (Py.slice_to n_results (sort_by_distance all_results)).

(** [_temporal_search] *)
Definition temporal_search (w : World) (query : string) (years : list Z)
    (n_results : Z) : M (list Hit) :=
  all_results ←
    for_fold years (λ all_results year,
      k ← floordiv n_results (Z.of_nat (length years));
      year_results ← search_by_company_year w query None (Some year) (k + 1);
      mret (all_results ++ year_results)) [];
  mret (Py.slice_to n_results (sort_by_distance all_results)).

(** The keyword arguments of [retrieve_for_query]. *)
Record Kwargs := {
  kw_companies : option (list string);
  kw_years : option (list Z);
  kw_n_results : option Z
}.

(** [retrieve_for_query]: [n_results] defaults to 8 in every strategy; the
    company-focused and temporal strategies need their list. *)
Definition retrieve_for_query (w : World) (query : string) (strategy : string)
    (kwargs : Kwargs) : M (list Hit) :=
  let n_results := default 8 (kw_n_results kwargs) in
  if bool_decide (strategy = "semantic") then semantic_search w query n_results
  else if bool_decide (strategy = "hybrid") then hybrid_search w query n_results
  else if bool_decide (strategy = "company_focused") then
    match kw_companies kwargs with
    | Some companies => company_focused_search w query companies n_results
    | None => raise (TypeError
        "RetrievalEngine._company_focused_search() missing 1 required positional argument: 'companies'")
    end
  else if bool_decide (strategy = "temporal") then
    match kw_years kwargs with
    | Some years => temporal_search w query years n_results
    | None => raise (TypeError
        "RetrievalEngine._temporal_search() missing 1 required positional argument: 'years'")
    end
  else semantic_search w query n_results.

(** ** ResultSynthesizer (src/agents/synthesizer.py) *)

(** [s[:n] + "..." if len(s) > n else s] *)
Definition truncate (n : nat) (s : string) : string :=
  if Z.of_nat n <? Py.len s then Py.take n s +:+ "..." else s.

(** [_prepare_context], over the items of the dictionary. *)
Definition prepare_context (retrieval_results : list (string * list Hit))
  : string :=
  let context_parts :=
    List.flat_map (λ '(sub_query, results),
      match results with
      | [] => []
      | _ =>
          ("Results for '" +:+ sub_query +:+ "':") ::
          imap (λ i result,
            "  [" +:+ pretty (Z.of_nat i + 1) +:+ "] " +:+ company result
            +:+ " " +:+ pretty (year result) +:+ ": "
            +:+ truncate 500 (text result)) (take 3 results)
          ++ [EmptyString]
      end) retrieval_results in
  Py.join (String "010" EmptyString) context_parts.

(** [re.findall(r'\\b\\w+\\b', s)]: the maximal runs of word characters. *)
Fixpoint word_runs (s : string) : list string :=
  match s with
  | EmptyString => []
  | String c s' =>
      if negb (Py.is_word c) then word_runs s'
      else
        match s' with
        | EmptyString => [String c EmptyString]
        | String c' _ =>
            if negb (Py.is_word c') then String c EmptyString :: word_runs s'
            else
              match word_runs s' with
              | w :: ws => String c w :: ws
              | [] => [String c EmptyString]
              end
        end
  end.

Definition is_sentence_end (c : ascii) : bool :=
  bool_decide (c = "."%char) || bool_decide (c = "!"%char)
  || bool_decide (c = "?"%char).

(** [re.split(r'[.!?]+', s)]: [in_run] tells whether the character before
    the head belongs to a run of separators. *)
Fixpoint split_sentences_go (in_run : bool) (s : string) : list string :=
  match s with
  | EmptyString => [EmptyString]
  | String c s' =>
      if is_sentence_end c
      then if in_run then split_sentences_go true s'
           else EmptyString :: split_sentences_go true s'
      else
        match split_sentences_go false s' with
        | w :: ws => String c w :: ws
        | [] => [String c EmptyString]
        end
  end.

Definition split_sentences : string → list string := split_sentences_go false.

(** [_extract_meaningful_excerpt] *)
Definition extract_meaningful_excerpt (text query : string) : string :=
  let query_terms := word_runs (Py.lower query) in
  let sentences := split_sentences text in
  let '(best_sentence, max_score) :=
    foldl (λ '(best_sentence, max_score) sentence,
      if 50 <? Py.len sentence
      then
        let sentence_lower := Py.lower sentence in
        let score :=
          Z.of_nat (length (List.filter (λ term,
            Py.contains term sentence_lower) query_terms)) in
        if max_score <? score then (Py.strip sentence, score)
        else (best_sentence, max_score)
      else (best_sentence, max_score)) (EmptyString, 0) sentences in
  if negb (bool_decide (best_sentence = EmptyString)) then truncate 200 best_sentence
  else truncate 200 text.

(** [round(x)] to the nearest integer, ties to the even one. *)
Definition round_half_even (x : Q) : Z :=
  let n := Qnum x in
  let d := Z.pos (Qden x) in
  let f := n `div` d in
  let r2 := 2 * (n `mod` d) in
  if r2 <? d then f
  else if d <? r2 then f + 1
  else if Z.even f then f else f + 1.

(** [round(x, 3)] *)
Definition round3 (x : Q) : Q :=
  Qmake (round_half_even (x * 1000)%Q) 1000.

(** The f-string [{company}_{year}_{section}]. *)
Definition source_id (result : Hit) : string :=
  company result +:+ "_" +:+ pretty (year result) +:+ "_" +:+ section result.

Definition make_source (sub_query : string) (result : Hit) : SourceCitation :=
  {| src_company := company result;
     src_year := year result;
     src_excerpt := extract_meaningful_excerpt (text result) sub_query;
     src_section := section result;
     relevance_score := round3 (1 - distance result)%Q |}.

(** The body of the inner loop of [_extract_sources]; the state is
    [(sources, seen_sources)]. *)
Definition extract_step (sub_query : string)
    (st : list SourceCitation * gset string) (result : Hit)
  : list SourceCitation * gset string :=
  let source_id := source_id result in
  if bool_decide (source_id ∈ st.2) then st
  else (st.1 ++ [make_source sub_query result], {[source_id]} ∪ st.2).

(** [_extract_sources] *)
Definition extract_sources (retrieval_results : list (string * list Hit))
  : list SourceCitation :=
  let st :=
    foldl (λ st '(sub_query, results),
      foldl (extract_step sub_query) st (take 2 results))
      ([], ∅) retrieval_results in
  take 5 st.1.

(** The prompt template chosen by [synthesize_answer]; the template for
    simple queries does not mention the sub-queries. *)
Definition llm_answer (w : World) (query_type query context : string)
    (sub_queries : list string) : M AnswerData :=
  let joined := Py.join ", " sub_queries in
  if bool_decide (query_type = "simple_direct") then
    call (EvGenerate "simple" query) (Ret (w_llm_response w "simple" query EmptyString context))
  else if bool_decide (query_type = "comparative_yoy") then
    call (EvGenerate "comparative" query)
         (Ret (w_llm_response w "comparative" query joined context))
  else if bool_decide (query_type = "cross_company") then
    call (EvGenerate "cross_company" query)
         (Ret (w_llm_response w "cross_company" query joined context))
  else
    call (EvGenerate "complex" query)
         (Ret (w_llm_response w "complex" query joined context)).

(** [synthesize_answer] *)
Definition synthesize_answer (w : World) (query : string)
    (sub_queries : list string)
    (retrieval_results : list (string * list Hit)) (query_type : string)
  : M Response :=
  emit (EvSynthesize query sub_queries) ≫= λ _,
  let context := prepare_context retrieval_results in
  answer_data ← llm_answer w query_type query context sub_queries;
  mret {| r_query := query;
          r_answer :=
            default "I couldn't find sufficient information to answer this query."
                    (ad_answer answer_data);
          r_reasoning :=
            default "Unable to process the available data."
                    (ad_reasoning answer_data);
          r_sub_queries := sub_queries;
          r_sources := extract_sources retrieval_results;
          r_confidence := default "low" (ad_confidence answer_data) |}.

(** ** FinancialQAAgent (src/agents/orchestrator.py) *)

(** [_execute_retrieval] *)
Definition execute_retrieval (w : World) (sub_query : string)
    (query_type : QueryType) (classification_info : ClassificationInfo)
  : M (list Hit) :=
  match query_type with
  | CROSS_COMPANY =>
      let companies :=
        default all_companies (ci_companies classification_info) in
      retrieve_for_query w sub_query "company_focused"
        {| kw_companies := Some companies; kw_years := None;
           kw_n_results := Some 6 |}
  | COMPARATIVE_YOY =>
      let years := default [] (ci_years classification_info) in
      match years with
      | _ :: _ =>
          retrieve_for_query w sub_query "temporal"
            {| kw_companies := None; kw_years := Some years;
               kw_n_results := Some 6 |}
      | [] =>
          retrieve_for_query w sub_query "hybrid"
            {| kw_companies := None; kw_years := None;
               kw_n_results := Some 6 |}
      end
  | _ =>
      retrieve_for_query w sub_query "hybrid"
        {| kw_companies := None; kw_years := None; kw_n_results := Some 6 |}
  end.

(** The answer built by the [except] clause of [answer_query]. *)
Definition error_response (query : string) (e : exn) : Response :=
  {| r_query := query;
     r_answer :=
       "An error occurred while processing your query: " +:+ exn_message e;
     r_reasoning := "System error during processing";
     r_sub_queries := [];
     r_sources := [];
     r_confidence := "low" |}.

(** The loop of [answer_query] that fills [retrieval_results]. *)
Definition retrieve_all (w : World) (sub_queries : list string)
    (query_type : QueryType) (classification_info : ClassificationInfo)
  : M (list (string * list Hit)) :=
  for_fold sub_queries (λ retrieval_results sub_query,
    results ← execute_retrieval w sub_query query_type classification_info;
    mret (dict_set sub_query results retrieval_results)) [].

(** The body of the [try] block of [answer_query]. *)
Definition answer_pipeline (w : World) (query : string) : M Response :=
  c ← classify_query w query;
  let query_type := c.1 in
  let classification_info := c.2 in
  sub_queries ← decompose_query w query query_type classification_info;
  retrieval_results ←
    retrieve_all w sub_queries query_type classification_info;
  synthesize_answer w query sub_queries retrieval_results (value query_type).

(** [answer_query] *)
Definition answer_query (w : World) (query : string) : M Response :=
  try_except (answer_pipeline w query)
             (λ e, mret (error_response query e)).


(** ** process_single_query (main.py) *)

Definition invalid_response (query message : string) : Response :=
  {| r_query := query;
     r_answer := "Invalid query: " +:+ message;
     r_reasoning := "Query validation failed";
     r_sub_queries := [];
     r_sources := [];
     r_confidence := "low" |}.

Definition process_single_query (w : World) (query : string) : M Response :=
  let processed_query := preprocess_query query in
  let '(is_valid, message) := validate_query processed_query in
  if negb is_valid then mret (invalid_response query message)
  else answer_query w processed_query.

(** ** Reference definitions, written from the specification

    They are compared with the definitions above; the code never calls
    them. *)

(** Apply [f] to every maximal run of non-space characters of [s] and keep
    the white space between the runs as it is; [cur] holds the characters of
    the current run, last one first. *)
Definition flush_word (f : string → string) (cur : string) : string :=
  match cur with
  | EmptyString => EmptyString
  | _ => f (String.rev cur)
  end.

Fixpoint map_words_go (f : string → string) (cur : string) (s : string)
  : string :=
  match s with
  | EmptyString => flush_word f cur
  | String c s' =>
      if Py.is_space c
      then flush_word f cur +:+ String c (map_words_go f EmptyString s')
      else map_words_go f (String c cur) s'
  end.

Definition map_words (f : string → string) : string → string :=
  map_words_go f EmptyString.

(** A word that equals a company name up to case becomes that name with a
    capital; any other word is kept. *)
Definition canonical_word (word : string) : string :=
  if bool_decide (Py.lower word = "google") then "Google"
  else if bool_decide (Py.lower word = "microsoft") then "Microsoft"
  else if bool_decide (Py.lower word = "nvidia") then "Nvidia"
  else word.

(** The query stripped of leading and trailing white space, with each word
    rewritten in place. *)
Definition preprocess_query_spec (query : string) : string :=
  map_words canonical_word (Py.strip query).

(** The candidate citations: for each sub-query in order, its first two
    results. *)
Definition candidates (retrieval_results : list (string * list Hit))
  : list (string * Hit) :=
  List.flat_map (λ '(sub_query, results),
    List.map (λ result, (sub_query, result)) (take 2 results))
    retrieval_results.

Definition triple (s : SourceCitation) : string * Z * string :=
  (src_company s, src_year s, src_section s).

Definition hit_triple (result : Hit) : string * Z * string :=
  (company result, year result, section result).

(** Keep the first citation of every [(company, year, section)]. *)
Fixpoint dedup_by_triple (seen : list (string * Z * string))
    (l : list SourceCitation) : list SourceCitation :=
  match l with
  | [] => []
  | s :: l' =>
      if bool_decide (triple s ∈ seen) then dedup_by_triple seen l'
      else s :: dedup_by_triple (triple s :: seen) l'
  end.

(** Descending by relevance score, stable. *)
Fixpoint insert_by_relevance (x : SourceCitation) (l : list SourceCitation)
  : list SourceCitation :=
  match l with
  | [] => [x]
  | y :: l' =>
      if Qle_bool (relevance_score y) (relevance_score x) then x :: l
      else y :: insert_by_relevance x l'
  end.

Definition sort_by_relevance (l : list SourceCitation) : list SourceCitation :=
  foldr insert_by_relevance [] l.

(** The five most relevant deduplicated candidate citations. *)
Definition extract_sources_spec (retrieval_results : list (string * list Hit))
  : list SourceCitation :=
  take 5 (sort_by_relevance (dedup_by_triple []
    (List.map (λ c, make_source c.1 c.2) (candidates retrieval_results)))).

(** [ceil(a / b)] for a positive [b]. *)
Definition ceil_div (a b : Z) : Z := - ((- a) `div` b).

(** What a trace asked of the index: the requested count and the filter of
    every query sent to it, in order. *)
Definition search_requests (t : list event) : list (Z * gmap string string) :=
  omap (λ ev,
    match ev with
    | EvSearch _ n_results filters => Some (n_results, filters)
    | _ => None
    end) t.

(** The queries sent to the index. *)
Definition searched_queries (t : list event) : list string :=
  omap (λ ev,
    match ev with
    | EvSearch query _ _ => Some query
    | _ => None
    end) t.


Definition is_classification (ev : event) : bool :=
  match ev with
  | EvClassify _ => true
  | _ => false
  end.


(** Ascending by distance. *)
Definition by_distance (a b : Hit) : Prop := (distance a <= distance b)%Q.

(** Strings made of white space only, and strings without white space. *)
Fixpoint all_space (s : string) : bool :=
  match s with
  | EmptyString => true
  | String c s' => Py.is_space c && all_space s'
  end.

Fixpoint no_space (s : string) : bool :=
  match s with
  | EmptyString => true
  | String c s' => negb (Py.is_space c) && no_space s'
  end.

(** A word: a non-empty string without white space. *)
Definition is_a_word (s : string) : Prop :=
  s ≠ EmptyString ∧ no_space s = true.

(** The rewriting of one word in [preprocess_query]. *)
Definition process_word (word : string) : string :=
  let word_lower := Py.lower word in
  if bool_decide (word_lower ∈ company_names) then Py.title word_lower
  else word.

(** The candidates that [_extract_sources] keeps, given the identifiers
    already seen: a candidate is kept when its identifier is new. *)
Fixpoint fresh (seen : gset string) (cs : list (string * Hit))
  : list (string * Hit) :=
  match cs with
  | [] => []
  | c :: cs' =>
      if bool_decide (source_id c.2 ∈ seen) then fresh seen cs'
      else c :: fresh ({[source_id c.2]} ∪ seen) cs'
  end.

(** ** Sample collaborators *)

Definition sample_hit (c : string) (y : Z) (s : string) (d : Q) : Hit :=
  {| text := c +:+ " reported revenue and operating income for the fiscal year.";
     company := c; year := y; section := s; distance := d;
     keyword_boost := None |}.

Definition silent_answer : AnswerData :=
  {| ad_answer := None; ad_reasoning := None; ad_confidence := None |}.

(** Four company names, one of them twice. *)
Definition four_companies : list string :=
  ["GOOGLE"; "GOOGLE"; "MICROSOFT"; "NVIDIA"].

(** An index that answers every query with the same two hits, and a model
    that is unreachable. *)
Definition sample_world : World :=
  {| w_search := λ _ _ _,
       Ret [sample_hit "MSFT" 2023 "Item 7" (3 # 10);
            sample_hit "GOOGL" 2023 "Item 8" (1 # 2)];
     w_llm_classify := λ _, Raise (ExternalError "model unavailable");
     w_llm_decompose := λ _ _ _ _, Raise (ExternalError "model unavailable");
     w_llm_response := λ _ _ _ _, silent_answer |}.

(** Six sub-queries with one result each, in six sections; the last result
    is the nearest one. *)
Definition six_results : list (string * list Hit) :=
  [("MSFT revenue 2021", [sample_hit "MSFT" 2021 "Item 7" (1 # 2)]);
   ("MSFT revenue 2022", [sample_hit "MSFT" 2022 "Item 7" (1 # 2)]);
   ("MSFT revenue 2023", [sample_hit "MSFT" 2023 "Item 7" (1 # 2)]);
   ("GOOGL revenue 2021", [sample_hit "GOOGL" 2021 "Item 7" (1 # 2)]);
   ("GOOGL revenue 2022", [sample_hit "GOOGL" 2022 "Item 7" (1 # 2)]);
   ("GOOGL revenue 2023", [sample_hit "GOOGL" 2023 "Item 7" (1 # 10)])].



(** [n] spaces. *)
Fixpoint spaces (n : nat) : string :=
  match n with
  | O => EmptyString
  | S n' => String " " (spaces n')
  end.

(** A financial question followed by 600 spaces. *)
Definition padded_query : string := "net income 2023" +:+ spaces 600.



(** ** Further sample collaborators *)

(** An index that fails on every query filtered on the company [bad]. *)
Definition picky_world (bad : string) : World :=
  {| w_search := λ _ _ filters,
       if bool_decide (filters !! "company" = Some bad)
       then Raise (ExternalError "index unavailable")
       else Ret [sample_hit "MSFT" 2023 "Item 7" (3 # 10)];
     w_llm_classify := w_llm_classify sample_world;
     w_llm_decompose := w_llm_decompose sample_world;
     w_llm_response := w_llm_response sample_world |}.



(** The dictionary that [classify_query] builds for a query of a given
    type. *)
Definition classification_info_of (query : string) (query_type : QueryType)
  : ClassificationInfo :=
  let query_lower := Py.lower query in
  {| ci_type := Some query_type;
     ci_companies := Some (extract_companies query_lower);
     ci_years := Some (extract_years query_lower);
     ci_metrics := Some (extract_metrics query_lower);
     ci_complexity_score :=
       Some (calculate_complexity query_lower (extract_companies query_lower)
               (extract_years query_lower) (extract_metrics query_lower)) |}.


(** ** Predicates on the text answered by the model *)

Fixpoint all_digits (s : string) : bool :=
  match s with
  | EmptyString => true
  | String c s' => Py.is_digit c && all_digits s'
  end.

(** The character [ch] occurs in [s]. *)
Fixpoint has_char (ch : ascii) (s : string) : bool :=
  match s with
  | EmptyString => false
  | String c s' => bool_decide (c = ch) || has_char ch s'
  end.

(** Neither the first nor the last character is white space. *)
Definition trimmed (s : string) : bool :=
  Py.no_leading_space s && Py.no_leading_space (String.rev s).

(** A sub-query as the decomposition prompt asks for it: not empty, on one
    line, without white space around it and without a leading dash. *)
Definition clean_sub_query (q : string) : bool :=
  negb (bool_decide (q = EmptyString)) && trimmed q
  && negb (has_char "010" q) && negb (Py.startswith "-" q).

(** A line of a numbered list. *)
Definition numbered_line (item : string * string) : string :=
  item.1 +:+ ". " +:+ item.2.

(** A numbered item: digits, then a clean sub-query. *)
Definition numbered_item (item : string * string) : bool :=
  negb (bool_decide (item.1 = EmptyString)) && all_digits item.1
  && clean_sub_query item.2.

(** The results of the hybrid strategy on the sample index. *)
Definition sample_hits_of (sub_query : string) : list Hit :=
  match (hybrid_search sample_world sub_query 6).2 with
  | Ret hits => hits
  | Raise _ => []
  end.


(** The canonical names in upper case, as [_extract_companies] appends
    them. *)
Definition extracted_names : list string := ["GOOGLE"; "MICROSOFT"; "NVIDIA"].

(** Every alias of the alias table, in its order. *)
Definition all_aliases : list string :=
  List.flat_map snd company_aliases.

(** Every element of the list is an upper-cased canonical name and none is
    one of the default tickers. *)
Definition names_not_tickers (companies : list string) : bool :=
  List.forallb (λ c, bool_decide (c ∈ extracted_names)
                     && bool_decide (c ∉ all_companies)) companies.


(** The loop of [_extract_companies] with the result of every test
    [alias in query] given beforehand: one flag per alias. *)
Definition extract_companies_flagged (table : list (string * list bool))
  : list string :=
  foldl (λ companies '(canonical_name, flags),
    foldl (λ companies (occurs : bool),
      if occurs
      then if bool_decide (canonical_name ∉ companies)
           then companies ++ [Py.upper canonical_name]
           else companies
      else companies) companies flags) [] table.

(** The alias table with every alias replaced by its test on the query. *)
Definition alias_flags (query : string) : list (string * list bool) :=
  List.map (λ '(canonical_name, aliases),
    (canonical_name, List.map (λ alias, Py.contains alias query) aliases))
    company_aliases.


(** A model that answers the decomposition prompt with a numbered list of
    two lines. *)
Definition listing_world : World :=
  {| w_search := w_search sample_world;
     w_llm_classify := w_llm_classify sample_world;
     w_llm_decompose := λ _ _ _ _,
       Ret (Py.join (String "010" EmptyString)
              ["1. MSFT revenue 2023"; "2. GOOGL revenue 2023"]);
     w_llm_response := w_llm_response sample_world |}.

(** * Properties *)

(** ** The computation monad *)

Lemma bind_ret {A B} (a : A) (f : A → M B) : (mret a ≫= f) = f a.
Proof. unfold mbind, M_bind, mret, M_ret; simpl. by destruct (f a). Qed.

Lemma bind_raise {A B} (e : exn) (f : A → M B) : (raise e ≫= f) = raise e.
Proof. reflexivity. Qed.

Lemma bind_call_ret {A B} ev (a : A) (f : A → M B) :
  (call ev (Ret a) ≫= f) = (ev :: (f a).1, (f a).2).
Proof. reflexivity. Qed.


Lemma bind_trace_ret {A B} (m : M A) (f : A → M B) t a :
  m = (t, Ret a) → (m ≫= f) = (t ++ (f a).1, (f a).2).
Proof. by intros ->. Qed.

Lemma bind_trace_raise {A B} (m : M A) (f : A → M B) t e :
  m = (t, Raise e) → (m ≫= f) = (t, Raise e).
Proof. by intros ->. Qed.

Lemma floordiv_nonzero (a b : Z) : b ≠ 0 → floordiv a b = mret (a `div` b).
Proof. intros Hb. unfold floordiv. by rewrite bool_decide_eq_false_2. Qed.

Lemma for_fold_cons {A S} (x : A) (l : list A) (body : S → A → M S) acc :
  for_fold (x :: l) body acc = (body acc x ≫= for_fold l body).
Proof. reflexivity. Qed.

(** A loop whose body always returns: the traces of the steps are
    concatenated and the state is folded. *)
Lemma for_fold_ret {A S} (l : list A) (body : S → A → M S)
    (tr : A → list event) (upd : S → A → S) (acc : S) :
  (∀ s x, x ∈ l → body s x = (tr x, Ret (upd s x))) →
  for_fold l body acc = (List.flat_map tr l, Ret (foldl upd acc l)).
Proof.
  revert acc. induction l as [|x l IH]; intros acc Hbody; [done|].
  rewrite for_fold_cons.
  rewrite (bind_trace_ret _ _ _ _ (Hbody acc x ltac:(set_solver))).
  rewrite IH by (intros; apply Hbody; set_solver).
  reflexivity.
Qed.

(** A loop whose body raises at [x], after steps that returned. *)
Lemma for_fold_raise {A S} (l1 l2 : list A) (x : A) (body : S → A → M S)
    (tr : A → list event) (upd : S → A → S) (acc : S) t e :
  (∀ s y, y ∈ l1 → body s y = (tr y, Ret (upd s y))) →
  body (foldl upd acc l1) x = (t, Raise e) →
  for_fold (l1 ++ x :: l2) body acc = (List.flat_map tr l1 ++ t, Raise e).
Proof.
  revert acc. induction l1 as [|y l1 IH]; intros acc Hbody Hx; simpl in *.
  - by rewrite (bind_trace_raise _ _ _ _ Hx).
  - rewrite (bind_trace_ret _ _ _ _ (Hbody acc y ltac:(set_solver))).
    rewrite (IH (upd acc y)); [|intros; apply Hbody; set_solver|done].
    simpl. by rewrite (assoc_L (++)).
Qed.

Lemma flat_map_singleton {A B} (f : A → B) (l : list A) :
  List.flat_map (λ x, [f x]) l = List.map f l.
Proof. induction l; simpl; by f_equal. Qed.

Lemma foldl_app_flat_map {A B} (f : A → list B) (l : list A) (acc : list B) :
  foldl (λ s x, s ++ f x) acc l = acc ++ List.flat_map f l.
Proof.
  revert acc. induction l as [|x l IH]; intros acc; simpl.
  - by rewrite app_nil_r.
  - by rewrite IH, (assoc_L (++)).
Qed.

(** ** Sorting by distance *)

Lemma insert_by_distance_perm x l : insert_by_distance x l ≡ₚ x :: l.
Proof.
  induction l as [|y l IH]; simpl; [done|].
  destruct (Qle_bool _ _); [done|].
  rewrite IH. apply Permutation_swap.
Qed.

Lemma sort_by_distance_perm l : sort_by_distance l ≡ₚ l.
Proof.
  induction l as [|x l IH]; simpl; [done|].
  by rewrite insert_by_distance_perm, IH.
Qed.

Lemma sort_by_distance_length l : length (sort_by_distance l) = length l.
Proof. apply Permutation_length, sort_by_distance_perm. Qed.

Lemma insert_by_distance_sorted x l :
  StronglySorted by_distance l → StronglySorted by_distance (insert_by_distance x l).
Proof.
  induction 1 as [|y l Hl IH Hy]; simpl.
  - repeat constructor.
  - destruct (Qle_bool (distance x) (distance y)) eqn:Hxy.
    + apply Qle_bool_iff in Hxy.
      constructor; [by constructor|].
      constructor; [done|].
      eapply Forall_impl; [exact Hy|].
      intros z Hz. unfold by_distance in *. by eapply Qle_trans.
    + assert (Hyx : by_distance y x).
      { unfold by_distance. destruct (Qlt_le_dec (distance y) (distance x)) as [Hlt|Hle].
        - by apply Qlt_le_weak.
        - apply Qle_bool_iff in Hle. congruence. }
      constructor; [done|].
      rewrite insert_by_distance_perm. by constructor.
Qed.

Lemma sort_by_distance_sorted l : StronglySorted by_distance (sort_by_distance l).
Proof.
  induction l as [|x l IH]; simpl; [constructor|].
  by apply insert_by_distance_sorted.
Qed.

Lemma StronglySorted_take {A} (R : A → A → Prop) n (l : list A) :
  StronglySorted R l → StronglySorted R (take n l).
Proof.
  intros Hl. revert n. induction Hl as [|x l Hl IH Hx]; intros [|n]; simpl;
    try constructor; [apply IH|].
  eapply Forall_forall. intros y Hy.
  eapply Forall_forall in Hx; [exact Hx|].
  eapply subseteq_take, Hy.
Qed.

Lemma slice_to_sorted {A} (R : A → A → Prop) n (l : list A) :
  StronglySorted R l → StronglySorted R (Py.slice_to n l).
Proof. intros. unfold Py.slice_to. destruct (0 <=? n); by apply StronglySorted_take. Qed.

Lemma slice_to_length {A} n (l : list A) :
  0 ≤ n → (length (Py.slice_to n l) ≤ Z.to_nat n)%nat.
Proof.
  intros Hn. unfold Py.slice_to.
  destruct (0 <=? n) eqn:E; [|lia].
  rewrite length_take. lia.
Qed.

(** ** The company-focused and temporal strategies *)

Section per_key_search.
Context (w : World) (query : string) (n_results : Z).

Lemma company_step (d : Z) (hits : list Hit) (c : string) (acc : list Hit) :
  d ≠ 0 →
  w_search w query (n_results `div` d + 1)
           (company_year_filters (Some c) None) = Ret hits →
  (k ← floordiv n_results d;
   company_results ← search_by_company_year w query (Some c) None (k + 1);
   mret (acc ++ company_results))
  = ([EvSearch query (n_results `div` d + 1)
               (company_year_filters (Some c) None)], Ret (acc ++ hits)).
Proof.
  intros Hd Hs. rewrite (floordiv_nonzero _ _ Hd), bind_ret.
  unfold search_by_company_year, search. by rewrite Hs.
Qed.

Lemma year_step (d : Z) (hits : list Hit) (y : Z) (acc : list Hit) :
  d ≠ 0 →
  w_search w query (n_results `div` d + 1)
           (company_year_filters None (Some y)) = Ret hits →
  (k ← floordiv n_results d;
   year_results ← search_by_company_year w query None (Some y) (k + 1);
   mret (acc ++ year_results))
  = ([EvSearch query (n_results `div` d + 1)
               (company_year_filters None (Some y))], Ret (acc ++ hits)).
Proof.
  intros Hd Hs. rewrite (floordiv_nonzero _ _ Hd), bind_ret.
  unfold search_by_company_year, search. by rewrite Hs.
Qed.

(** The loop of [_company_focused_search] when no query to the index
    raises: one query per company, in order, and the results
    concatenated. *)
Lemma company_loop (d : Z) (hits_of : string → list Hit) companies acc :
  d ≠ 0 →
  (∀ c, c ∈ companies →
     w_search w query (n_results `div` d + 1)
              (company_year_filters (Some c) None) = Ret (hits_of c)) →
  for_fold companies (λ all_results company,
    k ← floordiv n_results d;
    company_results ←
      search_by_company_year w query (Some company) None (k + 1);
    mret (all_results ++ company_results)) acc
  = (List.map (λ c, EvSearch query (n_results `div` d + 1)
                      (company_year_filters (Some c) None)) companies,
     Ret (acc ++ List.flat_map hits_of companies)).
Proof.
  intros Hd Hs.
  rewrite (for_fold_ret companies _
             (λ c, [EvSearch query (n_results `div` d + 1)
                            (company_year_filters (Some c) None)])
             (λ s c, s ++ hits_of c)).
  - by rewrite flat_map_singleton, foldl_app_flat_map.
  - intros s c Hc. apply company_step; auto.
Qed.

Lemma year_loop (d : Z) (hits_of : Z → list Hit) years acc :
  d ≠ 0 →
  (∀ y, y ∈ years →
     w_search w query (n_results `div` d + 1)
              (company_year_filters None (Some y)) = Ret (hits_of y)) →
  for_fold years (λ all_results year,
    k ← floordiv n_results d;
    year_results ←
      search_by_company_year w query None (Some year) (k + 1);
    mret (all_results ++ year_results)) acc
  = (List.map (λ y, EvSearch query (n_results `div` d + 1)
                      (company_year_filters None (Some y))) years,
     Ret (acc ++ List.flat_map hits_of years)).
Proof.
  intros Hd Hs.
  rewrite (for_fold_ret years _
             (λ y, [EvSearch query (n_results `div` d + 1)
                            (company_year_filters None (Some y))])
             (λ s y, s ++ hits_of y)).
  - by rewrite flat_map_singleton, foldl_app_flat_map.
  - intros s y Hy. apply year_step; auto.
Qed.
End per_key_search.

Lemma company_filter_exact c :
  c ≠ EmptyString → company_year_filters (Some c) None = {["company" := c]}.
Proof.
  intros Hc. unfold company_year_filters.
  by rewrite bool_decide_eq_false_2.
Qed.

(** C4, as the code has it: with a non-empty list of companies and an index
    that answers, the company-focused strategy sends exactly one query per
    company, each filtered on that company and each asking for
    [n // len(companies) + 1] items (the floor of the quotient, not its
    ceiling); the results are concatenated, sorted ascending by distance and
    cut to at most [n] items. *)
Theorem company_focused_requests (w : World) (query : string)
    (companies : list string) (n : Z) (hits_of : string → list Hit) :
  companies ≠ [] →
  0 ≤ n →
  (∀ c, c ∈ companies →
     w_search w query (n `div` Z.of_nat (length companies) + 1)
              (company_year_filters (Some c) None) = Ret (hits_of c)) →
  (company_focused_search w query companies n).1
    = List.map (λ c, EvSearch query (n `div` Z.of_nat (length companies) + 1)
                       (company_year_filters (Some c) None)) companies
  ∧ (∀ c, c ∈ companies → c ≠ EmptyString →
       company_year_filters (Some c) None = {["company" := c]})
  ∧ ∃ hits,
      (company_focused_search w query companies n).2 = Ret hits
      ∧ hits = take (Z.to_nat n)
                 (sort_by_distance (List.flat_map hits_of companies))
      ∧ StronglySorted by_distance hits
      ∧ (length hits ≤ Z.to_nat n)%nat.
Proof.
  intros Hne Hn Hs.
  assert (Hd : Z.of_nat (length companies) ≠ 0) by (destruct companies; simpl; [done|lia]).
  unfold company_focused_search.
  rewrite (company_loop w query n _ hits_of companies [] Hd Hs).
  unfold mbind, M_bind, mret, M_ret; cbn [fst snd].
  rewrite app_nil_r, app_nil_l.
  split; [done|]. split; [intros; by apply company_filter_exact|].
  eexists. split; [done|].
  assert (Hslice : Py.slice_to n (sort_by_distance (List.flat_map hits_of companies))
                   = take (Z.to_nat n) (sort_by_distance (List.flat_map hits_of companies))).
  { unfold Py.slice_to. destruct (0 <=? n) eqn:E; [done|lia]. }
  rewrite Hslice. split; [done|]. split.
  - apply StronglySorted_take, sort_by_distance_sorted.
  - rewrite length_take. lia.
Qed.

Lemma company_focused_requests_witness :
  (company_focused_search sample_world "operating margin" four_companies 6).1
  = List.map (λ c, EvSearch "operating margin" 2
                     (company_year_filters (Some c) None)) four_companies.
Proof.
  destruct (company_focused_requests sample_world "operating margin"
              four_companies 6
              (λ _, [sample_hit "MSFT" 2023 "Item 7" (3 # 10);
                     sample_hit "GOOGL" 2023 "Item 8" (1 # 2)]))
    as [H _]; [done | lia | done | exact H].
Defined.

(** C4 as stated fails: with four companies and n = 6 every query asks for
    6 // 4 + 1 = 2 items, where ceil(6 / 4) + 1 = 3. *)
Lemma company_focused_not_ceil :
  (search_requests
     (company_focused_search sample_world "operating margin" four_companies 6).1).*1
  ≠ replicate 4 (ceil_div 6 4 + 1).
Proof. vm_compute. discriminate. Qed.

(** The four companies are what the classifier extracts from a query that
    names the three companies: the alias test accepts "googl" inside
    "google". *)
Example four_companies_extracted :
  extract_companies (Py.lower "Compare operating margin between Google, Microsoft and Nvidia")
  = four_companies.
Proof. vm_compute. reflexivity. Qed.

(** C9, as the code has it: with an empty list the loop body is never run,
    so the division is never evaluated, no query is sent to the index and
    the empty sequence is returned. *)
Theorem empty_list_returns_empty (w : World) (query : string) (n : Z) :
  company_focused_search w query [] n = ([], Ret [])
  ∧ temporal_search w query [] n = ([], Ret []).
Proof.
  unfold company_focused_search, temporal_search; cbn [for_fold].
  rewrite !bind_ret. unfold Py.slice_to; simpl.
  rewrite !take_nil. by destruct (0 <=? n).
Qed.

(** C9 as stated fails: no [ZeroDivisionError] on an empty list. *)
Lemma empty_list_no_zero_division :
  (company_focused_search sample_world "operating margin" [] 6).2
    ≠ Raise ZeroDivisionError
  ∧ (temporal_search sample_world "revenue growth" [] 6).2
    ≠ Raise ZeroDivisionError.
Proof. split; vm_compute; discriminate. Qed.

(** ** The hybrid strategy *)









(** ** Substrings *)

Lemma append_cons c s t : String c s +:+ t = String c (s +:+ t).
Proof. reflexivity. Qed.

Lemma append_nil_l s : EmptyString +:+ s = s.
Proof. reflexivity. Qed.

Lemma startswith_app p s : Py.startswith p (p +:+ s) = true.
Proof.
  induction p as [|c p IH]; [done|].
  rewrite append_cons. simpl. by rewrite bool_decide_eq_true_2, IH.
Qed.

Lemma contains_app_l p s : Py.contains p (p +:+ s) = true.
Proof.
  destruct (p +:+ s) eqn:E; simpl; rewrite <-E, startswith_app; done.
Qed.

Lemma contains_app_r p t s :
  Py.contains p s = true → Py.contains p (t +:+ s) = true.
Proof.
  intros H. induction t as [|c t IH]; [done|].
  rewrite append_cons. simpl. rewrite IH. apply orb_true_r.
Qed.

Lemma contains_fmt_company c m y : Py.contains c (fmt_sub_query c m y) = true.
Proof. apply contains_app_l. Qed.

Lemma contains_fmt_metric c m y : Py.contains m (fmt_sub_query c m y) = true.
Proof. unfold fmt_sub_query. do 2 apply contains_app_r. apply contains_app_l. Qed.

Lemma fmt_sub_query_year_inj c m : Inj (=) (=) (fmt_sub_query c m).
Proof.
  intros y1 y2 H. unfold fmt_sub_query in H.
  do 4 apply (inj (String.app _)) in H.
  by apply (inj pretty) in H.
Qed.

(** ** The decomposer *)


Lemma flat_map_nonempty {A B} (f : A → list B) (l : list A) :
  l ≠ [] → (∀ x, f x ≠ []) → List.flat_map f l ≠ [].
Proof.
  destruct l as [|x l]; [done|]. intros _ Hf. simpl.
  specialize (Hf x). by destruct (f x).
Qed.


(** The cross-company decomposition is not empty when a company was
    extracted. *)
Lemma decompose_cross_company_nonempty (query : string)
    (info : ClassificationInfo) :
  default all_companies (ci_companies info) ≠ [] →
  decompose_cross_company_query query info ≠ [].
Proof.
  intros H. unfold decompose_cross_company_query.
  apply flat_map_nonempty; [done|]. intros c.
  destruct (default [] (ci_metrics info)); done.
Qed.

(** C1 at its failing input: the query is classified as a cross-company
    comparison by the pattern table, no company alias occurs in it, so the
    classification result is well formed with an empty list of companies,
    and its decomposition is the empty list, not the query itself. *)
Theorem cross_company_without_company (w : World) :
  let query := "which company had the highest operating margin" in
  ∃ info,
    classify_query w query = ([EvClassify query], Ret (CROSS_COMPANY, info))
    ∧ well_formed info
    ∧ ci_companies info = Some []
    ∧ decompose_query w query CROSS_COMPANY info = mret [].
Proof.
  eexists. split; [vm_compute; reflexivity|].
  split; [repeat split; by eexists|].
  split; reflexivity.
Qed.

(** C7: with one company, one metric and two distinct years the
    year-over-year decomposition is the two sub-queries
    [company metric year], one per year, each containing the company and the
    metric; with fewer than two years it is the query itself. *)
Theorem yoy_two_years (w : World) (query : string) (info : ClassificationInfo)
    (c m : string) (y1 y2 : Z) :
  ci_companies info = Some [c] →
  ci_metrics info = Some [m] →
  ci_years info = Some [y1; y2] →
  y1 ≠ y2 →
  decompose_query w query COMPARATIVE_YOY info
    = mret [fmt_sub_query c m y1; fmt_sub_query c m y2]
  ∧ fmt_sub_query c m y1 = c +:+ " " +:+ m +:+ " " +:+ pretty y1
  ∧ fmt_sub_query c m y2 = c +:+ " " +:+ m +:+ " " +:+ pretty y2
  ∧ fmt_sub_query c m y1 ≠ fmt_sub_query c m y2
  ∧ (∀ sq, sq ∈ [fmt_sub_query c m y1; fmt_sub_query c m y2] →
       Py.contains c sq = true ∧ Py.contains m sq = true)
  ∧ (∀ info', (length (default [] (ci_years info')) < 2)%nat →
       decompose_query w query COMPARATIVE_YOY info' = mret [query]).
Proof.
  intros Hc Hm Hy Hne.
  split; [|split; [done|split; [done|split; [|split]]]].
  - simpl. unfold decompose_yoy_query. by rewrite Hc, Hm, Hy.
  - by intros ?%(inj (fmt_sub_query c m)).
  - intros sq [->|[->|[]%elem_of_nil]%elem_of_cons]%elem_of_cons;
      by rewrite contains_fmt_company, contains_fmt_metric.
  - intros info' Hlen. simpl. unfold decompose_yoy_query.
    destruct (default [] (ci_years info')) as [|? [|? ?]]; simpl in *; [done|done|lia].
Qed.

Lemma yoy_two_years_witness :
  decompose_query sample_world "compare msft revenue 2022 and 2023"
    COMPARATIVE_YOY
    {| ci_type := Some COMPARATIVE_YOY; ci_companies := Some ["MICROSOFT"];
       ci_years := Some [2022; 2023]; ci_metrics := Some ["revenue"];
       ci_complexity_score := Some 4 |}
  = mret ["MICROSOFT revenue 2022"; "MICROSOFT revenue 2023"].
Proof.
  refine (proj1 (yoy_two_years sample_world _ _ "MICROSOFT" "revenue" 2022 2023
                   _ _ _ _)); [reflexivity | reflexivity | reflexivity | lia].
Defined.

(** ** Source citations *)

Lemma map_fmap {A B} (f : A → B) (l : list A) : List.map f l = f <$> l.
Proof. reflexivity. Qed.

Lemma candidates_cons sq results rr :
  candidates ((sq, results) :: rr)
  = ((λ result, (sq, result)) <$> take 2 results) ++ candidates rr.
Proof. reflexivity. Qed.

(** The two nested loops are one loop over the candidates. *)
Lemma extract_loops_flat rr st :
  foldl (λ st '(sub_query, results),
    foldl (extract_step sub_query) st (take 2 results)) st rr
  = foldl (λ st c, extract_step c.1 st c.2) st (candidates rr).
Proof.
  revert st. induction rr as [|[sq results] rr IH]; intros st; [done|].
  rewrite candidates_cons, foldl_app. simpl. rewrite IH. f_equal.
  generalize (take 2 results). intros l. revert st.
  induction l as [|r l IHl]; intros st; simpl; [done|]. by rewrite IHl.
Qed.

(** The loop appends the citations of the fresh candidates. *)
Lemma extract_loop_fresh cs sources seen :
  (foldl (λ st c, extract_step c.1 st c.2) (sources, seen) cs).1
  = sources ++ ((λ c, make_source c.1 c.2) <$> fresh seen cs).
Proof.
  revert sources seen. induction cs as [|c cs IH]; intros sources seen; simpl.
  - by rewrite app_nil_r.
  - unfold extract_step at 2. simpl.
    destruct (bool_decide (source_id c.2 ∈ seen)); simpl.
    + apply IH.
    + rewrite IH. by rewrite <-(assoc_L (++)).
Qed.

Lemma extract_sources_fresh rr :
  extract_sources rr
  = take 5 ((λ c, make_source c.1 c.2) <$> fresh ∅ (candidates rr)).
Proof.
  unfold extract_sources. by rewrite extract_loops_flat, extract_loop_fresh.
Qed.

Lemma fresh_sublist seen cs : fresh seen cs `sublist_of` cs.
Proof.
  revert seen. induction cs as [|c cs IH]; intros seen; simpl; [done|].
  destruct (bool_decide _); [by apply sublist_cons | by apply sublist_skip].
Qed.

Lemma fresh_not_seen seen cs c :
  c ∈ fresh seen cs → source_id c.2 ∉ seen.
Proof.
  revert seen. induction cs as [|c' cs IH]; intros seen; simpl.
  - by intros ?%elem_of_nil.
  - destruct (bool_decide (source_id c'.2 ∈ seen)) eqn:E.
    + apply IH.
    + apply bool_decide_eq_false in E.
      intros [->|Hin]%elem_of_cons; [done|].
      apply IH in Hin. set_solver.
Qed.

Lemma fresh_NoDup seen cs : NoDup ((λ c, source_id c.2) <$> fresh seen cs).
Proof.
  revert seen. induction cs as [|c cs IH]; intros seen; simpl; [constructor|].
  destruct (bool_decide (source_id c.2 ∈ seen)); [apply IH|].
  rewrite fmap_cons. constructor; [|apply IH].
  intros (c' & Heq & Hin)%list_elem_of_fmap.
  apply fresh_not_seen in Hin. set_solver.
Qed.

(** A kept candidate is the first one with its identifier. *)
Lemma fresh_first seen cs c :
  c ∈ fresh seen cs →
  ∃ l1 l2, cs = l1 ++ c :: l2
    ∧ ∀ c', c' ∈ l1 → source_id c'.2 ≠ source_id c.2.
Proof.
  revert seen. induction cs as [|c0 cs IH]; intros seen; simpl.
  - by intros ?%elem_of_nil.
  - destruct (bool_decide (source_id c0.2 ∈ seen)) eqn:E.
    + intros Hin. pose proof (fresh_not_seen _ _ _ Hin) as Hns.
      apply bool_decide_eq_true in E.
      destruct (IH _ Hin) as (l1 & l2 & -> & Hl1).
      exists (c0 :: l1), l2. split; [done|].
      intros c' [->|Hc']%elem_of_cons; [congruence | by apply Hl1].
    + intros [->|Hin]%elem_of_cons.
      * exists [], cs. split; [done|]. by intros ? ?%elem_of_nil.
      * pose proof (fresh_not_seen _ _ _ Hin) as Hns.
        destruct (IH _ Hin) as (l1 & l2 & -> & Hl1).
        exists (c0 :: l1), l2. split; [done|].
        intros c' [->|Hc']%elem_of_cons; [set_solver | by apply Hl1].
Qed.

(** The identifier is a function of the triple. *)
Lemma source_id_triple r r' :
  hit_triple r = hit_triple r' → source_id r = source_id r'.
Proof. unfold hit_triple, source_id. by intros [= -> -> ->]. Qed.

Lemma triple_make_source sq r : triple (make_source sq r) = hit_triple r.
Proof. reflexivity. Qed.

Lemma fresh_triples_NoDup seen cs :
  NoDup ((λ c, triple (make_source c.1 c.2)) <$> fresh seen cs).
Proof.
  pose proof (fresh_NoDup seen cs) as H.
  induction (fresh seen cs) as [|c l IH]; [constructor|].
  rewrite fmap_cons in *. apply NoDup_cons in H as [Hc Hl].
  constructor; [|by apply IH].
  intros (c' & Heq & Hin)%list_elem_of_fmap. apply Hc.
  apply list_elem_of_fmap. exists c'. split; [|done].
  apply source_id_triple. exact Heq.
Qed.

(** C6: no two citations of an answer have the same
    [(company, year, section)]; a citation comes from the first candidate
    with its triple (the candidates being the first two results of every
    sub-query, in order), so later candidates with that triple are
    skipped. *)
Theorem sources_deduplicated (retrieval_results : list (string * list Hit)) :
  NoDup (triple <$> extract_sources retrieval_results)
  ∧ ∀ s, s ∈ extract_sources retrieval_results →
      ∃ l1 sub_query result l2,
        candidates retrieval_results = l1 ++ (sub_query, result) :: l2
        ∧ s = make_source sub_query result
        ∧ ∀ c', c' ∈ l1 → hit_triple c'.2 ≠ hit_triple result.
Proof.
  rewrite extract_sources_fresh. split.
  - rewrite fmap_take.
    eapply sublist_NoDup; [|apply sublist_take].
    rewrite <-list_fmap_compose. apply fresh_triples_NoDup.
  - intros s Hs%subseteq_take.
    apply list_elem_of_fmap in Hs as ([sq r] & -> & Hin).
    destruct (fresh_first _ _ _ Hin) as (l1 & l2 & Hcs & Hl1).
    exists l1, sq, r, l2. split; [done|]. split; [done|].
    intros c' Hc' Heq. by apply (Hl1 c' Hc'), source_id_triple.
Qed.

(** C3, as the code has it: an answer cites at most five sources; they are
    the first five deduplicated candidates in the order of the sub-queries
    (two candidates per sub-query at most), not the five most relevant
    ones, and the score of each is [round(1 - distance, 3)]. *)
Theorem sources_first_five (retrieval_results : list (string * list Hit)) :
  (length (extract_sources retrieval_results) ≤ 5)%nat
  ∧ extract_sources retrieval_results
    = take 5 ((λ c, make_source c.1 c.2)
                <$> fresh ∅ (candidates retrieval_results))
  ∧ extract_sources retrieval_results
      `sublist_of` ((λ c, make_source c.1 c.2) <$> candidates retrieval_results)
  ∧ ∀ s, s ∈ extract_sources retrieval_results →
      ∃ sub_query result,
        (sub_query, result) ∈ candidates retrieval_results
        ∧ s = make_source sub_query result
        ∧ relevance_score s = round3 (1 - distance result)%Q.
Proof.
  split; [|split; [apply extract_sources_fresh|split]].
  - unfold extract_sources. rewrite length_take. lia.
  - rewrite extract_sources_fresh.
    etrans; [apply sublist_take|]. apply fmap_sublist, fresh_sublist.
  - rewrite extract_sources_fresh. intros s Hs%subseteq_take.
    apply list_elem_of_fmap in Hs as ([sq r] & -> & Hin).
    exists sq, r. split; [|done].
    eapply sublist_subseteq; [apply fresh_sublist|done].
Qed.

(** C3 as stated fails: of six candidates in six sections the code keeps the
    first five; the sixth, the most relevant one, is not cited. *)
Lemma sources_not_top_five :
  extract_sources six_results ≠ extract_sources_spec six_results
  ∧ head (extract_sources_spec six_results)
    = Some (make_source "GOOGL revenue 2023"
              (sample_hit "GOOGL" 2023 "Item 7" (1 # 10)))
  ∧ make_source "GOOGL revenue 2023" (sample_hit "GOOGL" 2023 "Item 7" (1 # 10))
    ∉ extract_sources six_results.
Proof.
  split; [vm_compute; discriminate|]. split; [vm_compute; reflexivity|].
  intros H%list_elem_of_In. vm_compute in H.
  repeat destruct H as [H|H]; try discriminate H. exact H.
Qed.

(** ** The orchestrator *)

Lemma try_except_ret {A} (m : M A) (h : exn → M A) t a :
  m = (t, Ret a) → try_except m h = (t, Ret a).
Proof. by intros ->. Qed.















(** ** Strings: reversal, stripping, splitting and joining *)

Lemma append_nil_r s : s +:+ EmptyString = s.
Proof. induction s as [|c s IH]; [done|]. by rewrite append_cons, IH. Qed.

Lemma append_assoc s t u : (s +:+ t) +:+ u = s +:+ (t +:+ u).
Proof. induction s as [|c s IH]; [done|]. by rewrite !append_cons, IH. Qed.

Lemma length_append s t :
  String.length (s +:+ t) = (String.length s + String.length t)%nat.
Proof. induction s as [|c s IH]; [done|]. rewrite append_cons. simpl. by rewrite IH. Qed.

Lemma rev_app_append s t : String.rev_app s t = String.rev s +:+ t.
Proof.
  unfold String.rev. revert t. induction s as [|c s IH]; intros t; [done|].
  simpl. rewrite (IH (String c EmptyString)), IH.
  by rewrite append_assoc.
Qed.

Lemma rev_cons c s : String.rev (String c s) = String.rev s +:+ String c EmptyString.
Proof. unfold String.rev at 1. simpl. apply rev_app_append. Qed.

Lemma rev_append s t : String.rev (s +:+ t) = String.rev t +:+ String.rev s.
Proof.
  induction s as [|c s IH].
  - by rewrite append_nil_l, append_nil_r.
  - by rewrite append_cons, !rev_cons, IH, append_assoc.
Qed.

Lemma rev_involutive s : String.rev (String.rev s) = s.
Proof.
  induction s as [|c s IH]; [done|].
  by rewrite rev_cons, rev_append, IH.
Qed.

Lemma length_rev s : String.length (String.rev s) = String.length s.
Proof.
  induction s as [|c s IH]; [done|].
  rewrite rev_cons, length_append, IH. simpl. lia.
Qed.

Lemma all_space_append s t :
  all_space (s +:+ t) = all_space s && all_space t.
Proof.
  induction s as [|c s IH]; [done|].
  rewrite append_cons. simpl. by rewrite IH, andb_assoc.
Qed.

Lemma all_space_rev s : all_space (String.rev s) = all_space s.
Proof.
  induction s as [|c s IH]; [done|].
  rewrite rev_cons, all_space_append, IH. simpl.
  by rewrite andb_true_r, andb_comm.
Qed.

Lemma lstrip_decompose s :
  ∃ sp, all_space sp = true ∧ s = sp +:+ Py.lstrip s.
Proof.
  induction s as [|c s (sp & Hsp & IH)]; [by exists EmptyString|].
  simpl. destruct (Py.is_space c) eqn:Hc.
  - exists (String c sp). simpl. rewrite Hc, Hsp. split; [done|].
    by rewrite append_cons, <-IH.
  - by exists EmptyString.
Qed.

Lemma rstrip_decompose s :
  ∃ sp, all_space sp = true ∧ s = Py.rstrip s +:+ sp.
Proof.
  destruct (lstrip_decompose (String.rev s)) as (sp & Hsp & Hs).
  exists (String.rev sp). split; [by rewrite all_space_rev|].
  unfold Py.rstrip. rewrite <-rev_append, <-Hs. by rewrite rev_involutive.
Qed.




Lemma split_all_space sp : all_space sp = true → Py.split sp = [].
Proof.
  induction sp as [|c sp IH]; [done|]. simpl.
  intros [Hc Hsp]%andb_prop. rewrite Hc. auto.
Qed.

Lemma split_cons_space c s : Py.is_space c = true → Py.split (String c s) = Py.split s.
Proof. intros Hc. simpl. by rewrite Hc. Qed.

Lemma split_space_l sp s :
  all_space sp = true → Py.split (sp +:+ s) = Py.split s.
Proof.
  induction sp as [|c sp IH]; [done|].
  intros [Hc Hsp]%andb_prop. rewrite append_cons, split_cons_space; auto.
Qed.

Lemma split_space_r s sp :
  all_space sp = true → Py.split (s +:+ sp) = Py.split s.
Proof.
  intros Hsp. induction s as [|c s IH].
  - rewrite append_nil_l. by apply split_all_space.
  - rewrite append_cons. simpl. destruct (Py.is_space c); [done|].
    destruct s as [|c' s].
    + rewrite append_nil_l in *. destruct sp as [|c'' sp]; [done|].
      simpl in Hsp. apply andb_prop in Hsp as [Hc'' Hsp'].
      rewrite Hc''. by rewrite IH.
    + rewrite append_cons in *. destruct (Py.is_space c'); by rewrite IH.
Qed.

Lemma split_lstrip s : Py.split (Py.lstrip s) = Py.split s.
Proof.
  destruct (lstrip_decompose s) as (sp & Hsp & Hs).
  rewrite Hs at 2. by rewrite split_space_l.
Qed.

Lemma split_rstrip s : Py.split (Py.rstrip s) = Py.split s.
Proof.
  destruct (rstrip_decompose s) as (sp & Hsp & Hs).
  rewrite Hs at 2. by rewrite split_space_r.
Qed.

(** Stripping does not change the words. *)
Lemma split_strip s : Py.split (Py.strip s) = Py.split s.
Proof. unfold Py.strip. by rewrite split_lstrip, split_rstrip. Qed.

(** The elements of a split are words. *)
Lemma split_words s : Forall is_a_word (Py.split s).
Proof.
  induction s as [|c s IH]; simpl; [constructor|].
  destruct (Py.is_space c) eqn:Hc; [done|].
  destruct s as [|c' s].
  - repeat constructor; [done|]. simpl. by rewrite Hc.
  - destruct (Py.is_space c') eqn:Hc'.
    + constructor; [|done]. split; [done|]. simpl. by rewrite Hc.
    + destruct (Py.split (String c' s)) as [|w ws]; simpl.
      * repeat constructor; [done|]. simpl. by rewrite Hc.
      * apply Forall_cons in IH as [[_ Hw] Hws].
        constructor; [|done]. split; [done|]. simpl. by rewrite Hc, Hw.
Qed.

Lemma split_word w : is_a_word w → Py.split w = [w].
Proof.
  intros [Hne Hw]. induction w as [|c w IH]; [done|].
  simpl in *. apply andb_prop in Hw as [Hc Hw].
  apply negb_true_iff in Hc. rewrite Hc.
  destruct w as [|c' w]; [done|].
  assert (Hc' : Py.is_space c' = false).
  { simpl in Hw. apply andb_prop in Hw as [Hc' _]. by apply negb_true_iff. }
  rewrite Hc'. by rewrite IH.
Qed.

Lemma split_word_space w rest :
  is_a_word w →
  Py.split (w +:+ String " " rest) = w :: Py.split rest.
Proof.
  intros [Hne Hw]. induction w as [|c w IH]; [done|].
  rewrite append_cons. simpl in Hw. apply andb_prop in Hw as [Hc Hw].
  apply negb_true_iff in Hc.
  change (Py.split (String c (w +:+ String " " rest)))
    with (if Py.is_space c then Py.split (w +:+ String " " rest)
          else match w +:+ String " " rest with
               | EmptyString => [String c EmptyString]
               | String c' _ =>
                   if Py.is_space c'
                   then String c EmptyString :: Py.split (w +:+ String " " rest)
                   else match Py.split (w +:+ String " " rest) with
                        | w' :: ws => String c w' :: ws
                        | [] => [String c EmptyString]
                        end
               end).
  rewrite Hc. destruct w as [|c' w].
  - rewrite append_nil_l.
    change (Py.is_space " ") with true. cbv iota.
    by rewrite (split_cons_space " " rest eq_refl).
  - rewrite append_cons.
    assert (Hc' : Py.is_space c' = false).
    { simpl in Hw. apply andb_prop in Hw as [Hc' _]. by apply negb_true_iff. }
    rewrite Hc'. rewrite <-append_cons. by rewrite IH.
Qed.

Lemma join_cons_cons sep w w' ws :
  Py.join sep (w :: w' :: ws) = w +:+ sep +:+ Py.join sep (w' :: ws).
Proof. reflexivity. Qed.

(** Splitting a single-spaced join of words gives the words back. *)
Lemma split_join ws :
  Forall is_a_word ws → Py.split (Py.join " " ws) = ws.
Proof.
  induction 1 as [|w ws Hw Hws IH]; [done|].
  destruct ws as [|w' ws].
  - by apply split_word.
  - rewrite join_cons_cons.
    change (" " +:+ Py.join " " (w' :: ws))
      with (String " " (Py.join " " (w' :: ws))).
    by rewrite split_word_space, IH.
Qed.

(** ** The query processor *)


Lemma process_word_canonical w : process_word w = canonical_word w.
Proof.
  unfold process_word, canonical_word, company_names.
  destruct (decide (Py.lower w = "google")) as [Hg|Hg].
  { rewrite Hg. by rewrite !bool_decide_eq_true_2 by set_solver. }
  destruct (decide (Py.lower w = "microsoft")) as [Hm|Hm].
  { rewrite Hm. by rewrite bool_decide_eq_true_2 by set_solver. }
  destruct (decide (Py.lower w = "nvidia")) as [Hn|Hn].
  { rewrite Hn. by rewrite bool_decide_eq_true_2 by set_solver. }
  rewrite !bool_decide_eq_false_2; [done..|].
  rewrite !not_elem_of_cons. repeat split; [done..|apply not_elem_of_nil].
Qed.


Lemma canonical_word_is_a_word w : is_a_word w → is_a_word (canonical_word w).
Proof.
  intros Hw. unfold canonical_word.
  destruct (bool_decide _); [done|].
  destruct (bool_decide _); [done|].
  by destruct (bool_decide _).
Qed.

Lemma preprocess_query_unfold table query :
  preprocess_query_with table query
  = Py.join " " (canonical_word <$> Py.split query).
Proof.
  unfold preprocess_query_with. rewrite split_strip, map_fmap.
  f_equal. apply list_fmap_ext. intros _ w _. apply process_word_canonical.
Qed.









(** The length that is tested is the length after preprocessing: a
    financial question followed by 600 spaces is longer than 500 characters
    and enters the pipeline. *)
Example padded_query_accepted :
  500 < Py.len padded_query
  ∧ List.existsb is_classification
      (process_single_query sample_world padded_query).1 = true.
Proof. split; vm_compute; reflexivity. Qed.

(** ** Rewriting words in place *)

Lemma map_words_go_word f cur w rest :
  no_space w = true →
  map_words_go f cur (w +:+ rest) = map_words_go f (String.rev_app w cur) rest.
Proof.
  revert cur. induction w as [|c w IH]; intros cur Hw; [done|].
  simpl in Hw. apply andb_prop in Hw as [Hc Hw]. apply negb_true_iff in Hc.
  rewrite append_cons. simpl. rewrite Hc. by apply IH.
Qed.

Lemma map_words_go_space f cur c s :
  Py.is_space c = true →
  map_words_go f cur (String c s)
  = flush_word f cur +:+ String c (map_words_go f EmptyString s).
Proof. intros Hc. simpl. by rewrite Hc. Qed.

Lemma flush_word_rev f w : w ≠ EmptyString → flush_word f (String.rev w) = f w.
Proof.
  intros Hw. unfold flush_word.
  destruct (String.rev w) as [|a s] eqn:E.
  - apply (f_equal String.length) in E. rewrite length_rev in E.
    by destruct w.
  - by rewrite <-E, rev_involutive.
Qed.

Lemma map_words_join f ws :
  Forall is_a_word ws →
  map_words f (Py.join " " ws) = Py.join " " (f <$> ws).
Proof.
  unfold map_words.
  induction 1 as [|w ws [Hne Hw] Hws IH]; [done|].
  destruct ws as [|w' ws].
  - simpl Py.join. rewrite <-(append_nil_r w) at 1.
    rewrite map_words_go_word by done. simpl map_words_go.
    by apply flush_word_rev.
  - rewrite !fmap_cons in *.
    rewrite (join_cons_cons _ w), (join_cons_cons _ (f w)).
    rewrite map_words_go_word by done.
    change (" " +:+ Py.join " " (w' :: ws))
      with (String " " (Py.join " " (w' :: ws))).
    rewrite (map_words_go_space f _ " " _ eq_refl).
    change (String.rev_app w EmptyString) with (String.rev w).
    rewrite flush_word_rev by done. by rewrite IH.
Qed.

(** C10, as the code has it: the result is the words of the query joined by
    single spaces, each word that equals a company name up to case replaced
    by the capitalised name and every other word unchanged; the replacement
    table has no effect on it.  It is the stripped query with its words
    rewritten in place when the words of the query are separated by single
    spaces. *)
Theorem preprocess_query_words (table : list (string * string))
    (query : string) :
  preprocess_query_with table query = preprocess_query query
  ∧ preprocess_query query
    = Py.join " " (canonical_word <$> Py.split query)
  ∧ Py.split (preprocess_query query) = canonical_word <$> Py.split query
  ∧ (∀ w, Py.lower w ∉ company_names → canonical_word w = w)
  ∧ (Py.join " " (Py.split query) = Py.strip query →
     preprocess_query query = preprocess_query_spec query).
Proof.
  unfold preprocess_query. rewrite !preprocess_query_unfold.
  split; [done|]. split; [done|]. split; [|split].
  - apply split_join, Forall_fmap.
    eapply Forall_impl; [apply split_words|]. apply canonical_word_is_a_word.
  - intros w Hw. unfold canonical_word, company_names in *.
    rewrite !not_elem_of_cons in Hw. destruct Hw as (?&?&?&_).
    by rewrite !bool_decide_eq_false_2.
  - intros Hsingle. unfold preprocess_query_spec.
    rewrite <-Hsingle. symmetry. apply map_words_join, split_words.
Qed.

Lemma preprocess_query_words_witness :
  preprocess_query "  What was GOOGLE revenue in 2023? "
  = preprocess_query_spec "  What was GOOGLE revenue in 2023? ".
Proof.
  destruct (preprocess_query_words replacements
              "  What was GOOGLE revenue in 2023? ") as (_ & _ & _ & _ & H).
  apply H. vm_compute. reflexivity.
Defined.

(** C10 as stated fails: white space between two words is not kept as it
    is, every run of it becomes one space. *)
Lemma preprocess_query_normalises_spaces :
  preprocess_query "MSFT  net income" = "MSFT net income"
  ∧ preprocess_query_spec "MSFT  net income" = "MSFT  net income"
  ∧ preprocess_query "MSFT  net income"
    ≠ preprocess_query_spec "MSFT  net income".
Proof. repeat split; vm_compute; (reflexivity || discriminate). Qed.

Lemma sources_deduplicated_witness :
  NoDup (triple <$> extract_sources six_results).
Proof. exact (proj1 (sources_deduplicated six_results)). Defined.

Lemma sources_first_five_witness :
  (length (extract_sources six_results) ≤ 5)%nat.
Proof. exact (proj1 (sources_first_five six_results)). Defined.

(** ** Sample evaluations *)

Example lower_ex : Py.lower "What's MSFT?" = "what's msft?".
Proof. reflexivity. Qed.

Example title_ex : Py.title "o'neil mcdonald 3rd" = "O'Neil Mcdonald 3Rd".
Proof. reflexivity. Qed.

Example strip_ex : Py.strip "  net  income " = "net  income".
Proof. reflexivity. Qed.

Example split_ex :
  Py.split "  net  income in 2023 " = ["net"; "income"; "in"; "2023"].
Proof. reflexivity. Qed.

Example split_on_ex : Py.split_on "," "a,,b," = ["a"; EmptyString; "b"; EmptyString].
Proof. reflexivity. Qed.

Example replace_ex : Py.replace "aa" "b" "aaaaa" = "bba".
Proof. reflexivity. Qed.

Example contains_ex : Py.contains "net" "internet" = true.
Proof. reflexivity. Qed.

(** An alias is not rewritten. *)
Example alias_passes_through :
  preprocess_query "  MSFT revenue 2023 vs GOOGLE " = "MSFT revenue 2023 vs Google".
Proof. vm_compute. reflexivity. Qed.

Example extract_years_ex :
  extract_years "google alphabet 2021 12022 2024x 2020. 2019 2025"
  = [2020; 2021; 2025].
Proof. vm_compute. reflexivity. Qed.

Example parse_sub_queries_ex :
  parse_sub_queries
    (Py.join (String "010" EmptyString)
       ["1. MSFT revenue 2023"; "- GOOGL revenue 2023"; "Sub-queries:";
        "  12.   NVDA revenue 2023  "; "3."])
  = ["MSFT revenue 2023"; "GOOGL revenue 2023"; "NVDA revenue 2023";
     EmptyString].
Proof. vm_compute. reflexivity. Qed.

Example round3_ex :
  round3 (1 - (3 # 10)) = (700 # 1000)%Q
  ∧ round3 (12345 # 10000) = (1234 # 1000)%Q
  ∧ round3 (12355 # 10000) = (1236 # 1000)%Q.
Proof. repeat split; vm_compute; reflexivity. Qed.

Example split_sentences_ex :
  split_sentences "a.b." = ["a"; "b"; EmptyString]
  ∧ split_sentences "..a!?b" = [EmptyString; "a"; "b"].
Proof. split; reflexivity. Qed.

(** The retrievals of a cross-company question without company name: no
    sub-query, so nothing is retrieved and the synthesizer works on an empty
    context. *)
Example empty_decomposition_answer :
  let query := "which company had the highest operating margin" in
  searched_queries (answer_query sample_world query).1 = []
  ∧ ∃ r, (answer_query sample_world query).2 = Ret r
         ∧ r_sub_queries r = [] ∧ r_sources r = [].
Proof. split; [vm_compute; reflexivity|]. eexists. by vm_compute. Qed.

(** * Further properties *)

(** ** Retrieval strategies *)

(** X1: when the index answers, the hybrid strategy sends one unfiltered
    query, and returns the boosted results, all of them, sorted ascending by
    their adjusted distance; when the index raises, so does the
    strategy. *)
Theorem hybrid_search_sorted (w : World) (query : string) (n : Z)
    (hits : list Hit) :
  w_search w query n ∅ = Ret hits →
  ∃ results,
    hybrid_search w query n = ([EvSearch query n ∅], Ret results)
    ∧ results ≡ₚ boost (Py.lower query) <$> hits
    ∧ length results = length hits
    ∧ StronglySorted by_distance results.
Proof.
  intros Hs. unfold hybrid_search, search. rewrite Hs, bind_call_ret.
  eexists. split; [reflexivity|]. rewrite map_fmap.
  split; [apply sort_by_distance_perm|]. split.
  - by rewrite sort_by_distance_length, length_fmap.
  - apply sort_by_distance_sorted.
Qed.

Lemma hybrid_search_sorted_witness :
  ∃ results,
    hybrid_search sample_world "revenue" 6
    = ([EvSearch "revenue" 6 ∅], Ret results)
    ∧ length results = 2%nat.
Proof.
  destruct (hybrid_search_sorted sample_world "revenue" 6
              [sample_hit "MSFT" 2023 "Item 7" (3 # 10);
               sample_hit "GOOGL" 2023 "Item 8" (1 # 2)] eq_refl)
    as (results & H & _ & Hlen & _).
  exists results. split; [exact H|exact Hlen].
Defined.

Lemma year_filter_exact y :
  y ≠ 0 → company_year_filters None (Some y) = {["year" := pretty y]}.
Proof.
  intros Hy. unfold company_year_filters.
  by rewrite bool_decide_eq_false_2.
Qed.

(** X2: with a non-empty list of years and an index that answers, the
    temporal strategy sends exactly one query per year, each asking for
    [n // len(years) + 1] items and, for a year other than 0, filtered on
    the decimal form of that year; the results are concatenated, sorted
    ascending by distance and cut to at most [n] items. *)
Theorem temporal_requests (w : World) (query : string) (years : list Z)
    (n : Z) (hits_of : Z → list Hit) :
  years ≠ [] →
  0 ≤ n →
  (∀ y, y ∈ years →
     w_search w query (n `div` Z.of_nat (length years) + 1)
              (company_year_filters None (Some y)) = Ret (hits_of y)) →
  (temporal_search w query years n).1
    = List.map (λ y, EvSearch query (n `div` Z.of_nat (length years) + 1)
                       (company_year_filters None (Some y))) years
  ∧ (∀ y, y ∈ years → y ≠ 0 →
       company_year_filters None (Some y) = {["year" := pretty y]})
  ∧ ∃ hits,
      (temporal_search w query years n).2 = Ret hits
      ∧ hits = take (Z.to_nat n)
                 (sort_by_distance (List.flat_map hits_of years))
      ∧ StronglySorted by_distance hits
      ∧ (length hits ≤ Z.to_nat n)%nat.
Proof.
  intros Hne Hn Hs.
  assert (Hd : Z.of_nat (length years) ≠ 0) by (destruct years; simpl; [done|lia]).
  unfold temporal_search.
  rewrite (year_loop w query n _ hits_of years [] Hd Hs).
  unfold mbind, M_bind, mret, M_ret; cbn [fst snd].
  rewrite app_nil_r, app_nil_l.
  split; [done|]. split; [intros; by apply year_filter_exact|].
  eexists. split; [done|].
  assert (Hslice : Py.slice_to n (sort_by_distance (List.flat_map hits_of years))
                   = take (Z.to_nat n) (sort_by_distance (List.flat_map hits_of years))).
  { unfold Py.slice_to. destruct (0 <=? n) eqn:E; [done|lia]. }
  rewrite Hslice. split; [done|]. split.
  - apply StronglySorted_take, sort_by_distance_sorted.
  - rewrite length_take. lia.
Qed.

Lemma temporal_requests_witness :
  (temporal_search sample_world "MICROSOFT revenue 2022" [2022; 2023] 6).1
  = List.map (λ y, EvSearch "MICROSOFT revenue 2022" 4
                     (company_year_filters None (Some y))) [2022; 2023].
Proof.
  destruct (temporal_requests sample_world "MICROSOFT revenue 2022"
              [2022; 2023] 6
              (λ _, [sample_hit "MSFT" 2023 "Item 7" (3 # 10);
                     sample_hit "GOOGL" 2023 "Item 8" (1 # 2)]))
    as [H _]; [done | lia | done | exact H].
Defined.

(** X3: the filter dictionary of [search_by_company_year] holds the company
    under "company" unless it is absent or empty, the decimal form of the
    year under "year" unless it is absent or 0, and nothing else; so an
    empty company and the year 0 give an unfiltered query. *)
Theorem company_year_filters_lookup (company : option string)
    (year : option Z) (key : string) :
  company_year_filters company year !! key
  = if bool_decide (key = "company")
    then match company with
         | Some c => if bool_decide (c = EmptyString) then None else Some c
         | None => None
         end
    else if bool_decide (key = "year")
    then match year with
         | Some y => if bool_decide (y = 0) then None else Some (pretty y)
         | None => None
         end
    else None.
Proof.
  unfold company_year_filters.
  destruct company as [c|], year as [y|];
    repeat case_bool_decide; subst;
    rewrite ?lookup_insert_eq, ?lookup_insert_ne, ?lookup_empty by done;
    try done.
  all: by rewrite ?lookup_insert_eq, ?lookup_insert_ne, ?lookup_empty by done.
Qed.

(** X4: when the index raises on the query for one company, after it
    answered for the companies before it, the company-focused strategy
    raises the same exception; it has sent the queries for those companies
    and none for the companies after. *)
Theorem company_focused_failure (w : World) (query : string)
    (pre post : list string) (bad : string) (n : Z) (e : exn)
    (hits_of : string → list Hit) :
  let companies := pre ++ bad :: post in
  let k := n `div` Z.of_nat (length companies) + 1 in
  (∀ c, c ∈ pre →
     w_search w query k (company_year_filters (Some c) None)
     = Ret (hits_of c)) →
  w_search w query k (company_year_filters (Some bad) None) = Raise e →
  company_focused_search w query companies n
  = (List.map (λ c, EvSearch query k (company_year_filters (Some c) None))
       (pre ++ [bad]),
     Raise e).
Proof.
  intros companies k Hpre Hbad.
  assert (Hd : Z.of_nat (length companies) ≠ 0).
  { unfold companies. rewrite length_app. simpl. lia. }
  unfold company_focused_search. fold companies.
  erewrite bind_trace_raise; [reflexivity|].
  unfold companies at 1.
  rewrite (for_fold_raise pre post bad _
             (λ c, [EvSearch query k (company_year_filters (Some c) None)])
             (λ s c, s ++ hits_of c) []
             [EvSearch query k (company_year_filters (Some bad) None)] e).
  - by rewrite flat_map_singleton, List.map_app.
  - intros s c Hc. apply company_step; auto.
  - rewrite (floordiv_nonzero _ _ Hd), bind_ret.
    unfold search_by_company_year, search. fold k. by rewrite Hbad.
Qed.

Lemma company_focused_failure_witness :
  company_focused_search (picky_world "MICROSOFT") "operating margin 2023"
    ["GOOGLE"; "MICROSOFT"; "NVIDIA"] 6
  = (List.map (λ c, EvSearch "operating margin 2023" 3
                      (company_year_filters (Some c) None))
       ["GOOGLE"; "MICROSOFT"],
     Raise (ExternalError "index unavailable")).
Proof.
  apply (company_focused_failure (picky_world "MICROSOFT")
           "operating margin 2023" ["GOOGLE"] ["NVIDIA"] "MICROSOFT" 6
           (ExternalError "index unavailable")
           (λ _, [sample_hit "MSFT" 2023 "Item 7" (3 # 10)])).
  - intros c ->%list_elem_of_singleton. vm_compute. reflexivity.
  - vm_compute. reflexivity.
Defined.

(** ** The orchestrator: answers in every case *)









Lemma classify_query_pattern w query query_type :
  classify_by_patterns (Py.lower query) = Some query_type →
  classify_query w query
  = ([EvClassify query],
     Ret (query_type, classification_info_of query query_type)).
Proof.
  intros H. unfold classify_query, emit.
  rewrite (bind_trace_ret _ _ [EvClassify query] tt eq_refl).
  cbv zeta. rewrite H, bind_ret. reflexivity.
Qed.

Lemma extract_sources_one sub_query results :
  (length (extract_sources [(sub_query, results)]) ≤ 2)%nat.
Proof.
  rewrite extract_sources_fresh, length_take, length_fmap.
  etrans; [apply Nat.le_min_r|].
  etrans; [apply sublist_length, fresh_sublist|].
  unfold candidates; simpl. rewrite app_nil_r, length_map, length_take. lia.
Qed.

(** X7: a query that the pattern table classifies as a simple direct
    question is answered, when the index answers, with exactly one query to
    the index (the query itself, 6 results, no filter), no call of the model
    before synthesis, the query as only sub-query, and at most two
    sources. *)
Theorem simple_direct_answer (w : World) (query : string) (hits : list Hit) :
  classify_by_patterns (Py.lower query) = Some SIMPLE_DIRECT →
  w_search w query 6 ∅ = Ret hits →
  ∃ r,
    answer_query w query
    = ([EvClassify query; EvSearch query 6 ∅; EvSynthesize query [query];
        EvGenerate "simple" query], Ret r)
    ∧ r_query r = query
    ∧ r_sub_queries r = [query]
    ∧ r_sources r
      = extract_sources
          [(query, sort_by_distance (boost (Py.lower query) <$> hits))]
    ∧ (length (r_sources r) ≤ 2)%nat.
Proof.
  intros Hpat Hs.
  unfold answer_query, answer_pipeline.
  rewrite (classify_query_pattern w query _ Hpat).
  rewrite (bind_trace_ret _ _ _ _ eq_refl). cbn [fst snd].
  unfold decompose_query. rewrite bind_ret.
  unfold retrieve_all. cbn [for_fold].
  unfold execute_retrieval, retrieve_for_query. cbn [kw_n_results default].
  rewrite (bool_decide_eq_false_2 ("hybrid" = "semantic")) by done.
  rewrite (bool_decide_eq_true_2 ("hybrid" = "hybrid")) by done.
  unfold hybrid_search, search, id. rewrite Hs.
  unfold synthesize_answer, llm_answer, value.
  rewrite (bool_decide_eq_true_2 ("simple_direct" = "simple_direct")) by done.
  eexists. split; [reflexivity|]. cbn [r_query r_sub_queries r_sources].
  split; [done|]. split; [done|]. split; [done|].
  apply extract_sources_one.
Qed.

Lemma simple_direct_answer_witness :
  ∃ r,
    (answer_query sample_world "What was Microsoft's total revenue in 2023?").2
    = Ret r
    ∧ r_sub_queries r = ["What was Microsoft's total revenue in 2023?"].
Proof.
  destruct (simple_direct_answer sample_world
              "What was Microsoft's total revenue in 2023?"
              [sample_hit "MSFT" 2023 "Item 7" (3 # 10);
               sample_hit "GOOGL" 2023 "Item 8" (1 # 2)])
    as (r & H & _ & Hsub & _).
  - vm_compute. reflexivity.
  - reflexivity.
  - exists r. split; [by rewrite H|exact Hsub].
Defined.

(** ** The dictionary of retrieval results *)

Lemma dict_set_keys {V} k (v : V) d :
  (dict_set k v d).*1 = if bool_decide (k ∈ d.*1) then d.*1 else d.*1 ++ [k].
Proof.
  induction d as [|[k' v'] d IH]; [done|].
  cbn [dict_set]. destruct (decide (k' = k)) as [->|Hne].
  - rewrite (bool_decide_eq_true_2 (k = k)) by done.
    rewrite (bool_decide_eq_true_2 (k ∈ _)); [done|].
    rewrite fmap_cons. apply elem_of_cons; by left.
  - rewrite (bool_decide_eq_false_2 (k' = k)) by done.
    rewrite !fmap_cons. cbn [fst]. rewrite IH.
    destruct (decide (k ∈ d.*1)) as [Hin|Hin].
    + rewrite !bool_decide_eq_true_2; [done|apply elem_of_cons; by right|done].
    + rewrite !bool_decide_eq_false_2; [done| |done].
      intros [?|?]%elem_of_cons; by subst.
Qed.

Lemma dict_set_values {V} (P : string → V → Prop) k (v : V) d :
  P k v → (∀ k' v', (k', v') ∈ d → P k' v') →
  ∀ k' v', (k', v') ∈ dict_set k v d → P k' v'.
Proof.
  intros Hkv. induction d as [|[k0 v0] d IH]; simpl; intros Hd k' v'.
  - by intros [= -> ->]%list_elem_of_singleton.
  - case_bool_decide as Hk; subst.
    + intros [[= -> ->]|Hin]%elem_of_cons; [done|]. apply Hd. by right.
    + intros [[= -> ->]|Hin]%elem_of_cons; [apply Hd; by left|].
      apply IH; [|done]. intros ?? ?. apply Hd. by right.
Qed.

Lemma dict_set_NoDup {V} k (v : V) d : NoDup d.*1 → NoDup (dict_set k v d).*1.
Proof.
  intros Hd. rewrite dict_set_keys. case_bool_decide as Hin; [done|].
  apply NoDup_app. split; [done|]. split; [|apply NoDup_singleton].
  intros x Hx ->%list_elem_of_singleton. done.
Qed.

Lemma dict_fold_invariant {V} (value_of : string → V) ks d :
  NoDup d.*1 →
  (∀ k v, (k, v) ∈ d → v = value_of k) →
  let d' := foldl (λ s k, dict_set k (value_of k) s) d ks in
  NoDup d'.*1
  ∧ (∀ k, k ∈ d'.*1 ↔ k ∈ d.*1 ∨ k ∈ ks)
  ∧ (∀ k v, (k, v) ∈ d' → v = value_of k).
Proof.
  revert d. induction ks as [|k ks IH]; intros d Hnd Hval; simpl.
  - split; [done|]. split; [|done]. intros k. split; [by left|].
    by intros [?|?%elem_of_nil].
  - destruct (IH (dict_set k (value_of k) d)) as (H1 & H2 & H3).
    + by apply dict_set_NoDup.
    + apply (dict_set_values (λ k v, v = value_of k)); [done|exact Hval].
    + split; [done|]. split; [|done].
      intros k'. rewrite H2, dict_set_keys.
      destruct (decide (k ∈ d.*1)) as [Hin|Hin].
      * rewrite bool_decide_eq_true_2 by done. split.
        -- intros [?|?]; [by left|right; apply elem_of_cons; by right].
        -- intros [?|[->|?]%elem_of_cons]; [by left|by left|by right].
      * rewrite bool_decide_eq_false_2 by done. split.
        -- intros [[?|Hk]%elem_of_app|?];
             [by left
             |apply list_elem_of_singleton in Hk as ->;
              right; apply elem_of_cons; by left
             |right; apply elem_of_cons; by right].
        -- intros [?|[->|?]%elem_of_cons];
             [left; apply elem_of_app; by left
             |left; apply elem_of_app; right; by apply list_elem_of_singleton
             |by right].
Qed.

(** X8: when every retrieval returns, the loop of [answer_query] retrieves
    every sub-query of the list, repeated ones again, and leaves a
    dictionary with exactly one entry per distinct sub-query, holding the
    results retrieved for it. *)
Theorem retrieve_all_entries (w : World) (sub_queries : list string)
    (query_type : QueryType) (info : ClassificationInfo)
    (hits_of : string → list Hit) :
  (∀ sq, sq ∈ sub_queries →
     (execute_retrieval w sq query_type info).2 = Ret (hits_of sq)) →
  ∃ retrieval_results,
    retrieve_all w sub_queries query_type info
    = (List.flat_map (λ sq, (execute_retrieval w sq query_type info).1)
         sub_queries, Ret retrieval_results)
    ∧ NoDup retrieval_results.*1
    ∧ (∀ sq, sq ∈ retrieval_results.*1 ↔ sq ∈ sub_queries)
    ∧ (∀ sq hits, (sq, hits) ∈ retrieval_results → hits = hits_of sq).
Proof.
  intros Hret.
  destruct (dict_fold_invariant hits_of sub_queries [])
    as (H1 & H2 & H3); [constructor|by intros ?? ?%elem_of_nil|].
  eexists. split; [|split; [exact H1|split; [|exact H3]]].
  - unfold retrieve_all.
    apply (for_fold_ret sub_queries _
             (λ sq, (execute_retrieval w sq query_type info).1)
             (λ s sq, dict_set sq (hits_of sq) s)).
    intros s sq Hsq. specialize (Hret sq Hsq).
    destruct (execute_retrieval w sq query_type info) as [t o].
    simpl in Hret. subst o.
    unfold mbind, M_bind, mret, M_ret; simpl. by rewrite app_nil_r.
  - intros sq. rewrite H2. split; [by intros [?%elem_of_nil|?]|by right].
Qed.

Lemma retrieve_all_entries_witness :
  ∃ retrieval_results,
    (retrieve_all sample_world
       ["GOOGLE revenue 2022"; "GOOGLE revenue 2023"; "GOOGLE revenue 2022"]
       SIMPLE_DIRECT (classification_info_of "google" SIMPLE_DIRECT)).2
    = Ret retrieval_results
    ∧ NoDup retrieval_results.*1.
Proof.
  destruct (retrieve_all_entries sample_world
              ["GOOGLE revenue 2022"; "GOOGLE revenue 2023";
               "GOOGLE revenue 2022"]
              SIMPLE_DIRECT (classification_info_of "google" SIMPLE_DIRECT)
              sample_hits_of) as (rr & H & Hnd & _).
  - intros sq Hsq.
    repeat (apply elem_of_cons in Hsq as [->|Hsq]);
      [vm_compute; reflexivity .. | by apply elem_of_nil in Hsq].
  - exists rr. split; [by rewrite H|exact Hnd].
Defined.

(** ** The decomposer: sizes, fallback and parsing *)


Lemma length_flat_map_const {A B} (f : A → list B) (l : list A) n :
  (∀ x, length (f x) = n) → length (List.flat_map f l) = (length l * n)%nat.
Proof.
  intros Hf. induction l as [|x l IH]; simpl; [done|].
  rewrite length_app, Hf, IH. lia.
Qed.

(** X10: the number of sub-queries.  A cross-company decomposition has one
    sub-query per company and metric (one metric when none was extracted);
    a year-over-year decomposition with at least two years has one per
    company, metric and year (the three companies when none was extracted);
    a segment decomposition has two per company and at least two. *)
Theorem decomposition_sizes (query : string) (info : ClassificationInfo) :
  let companies := default [] (ci_companies info) in
  let years := default [] (ci_years info) in
  let metrics := default [] (ci_metrics info) in
  length (decompose_cross_company_query query info)
  = (length (default all_companies (ci_companies info))
     * length (list_or metrics ["operating margin"]))%nat
  ∧ ((2 ≤ length years)%nat →
     length (decompose_yoy_query query info)
     = (length (list_or companies all_companies)
        * (length (list_or metrics ["revenue"]) * length years))%nat)
  ∧ (2 ≤ length (decompose_segment_query query info))%nat
  ∧ (companies ≠ [] →
     length (decompose_segment_query query info)
     = (length companies * 2)%nat).
Proof.
  intros companies years metrics.
  split; [|split; [|split]].
  - unfold decompose_cross_company_query.
    apply length_flat_map_const. intros c. by rewrite length_map.
  - intros Hy. unfold decompose_yoy_query. fold companies years metrics.
    assert (Hge : (2 <=? Z.of_nat (length years)) = true) by (apply Z.leb_le; lia).
    rewrite Hge.
    assert (Hlen :
      length (List.flat_map (λ company,
        List.flat_map (λ metric,
          List.map (λ year, fmt_sub_query company metric year) years)
          (list_or metrics ["revenue"])) (list_or companies all_companies))
      = (length (list_or companies all_companies)
         * (length (list_or metrics ["revenue"]) * length years))%nat).
    { apply length_flat_map_const. intros c.
      apply length_flat_map_const. intros m. by rewrite length_map. }
    destruct (List.flat_map _ _) as [|sq sqs] eqn:E; [|done].
    simpl in Hlen. simpl.
    assert (length (list_or companies all_companies) ≠ 0)%nat
      by (by destruct companies).
    assert (length (list_or metrics ["revenue"]) ≠ 0)%nat
      by (by destruct metrics).
    nia.
  - unfold decompose_segment_query. fold companies.
    rewrite (length_flat_map_const _ _ 2%nat) by done.
    destruct companies; [repeat case_match; simpl; lia|simpl; lia].
  - intros Hne. unfold decompose_segment_query. fold companies.
    rewrite (length_flat_map_const _ _ 2%nat) by done. by destruct companies.
Qed.

Lemma decomposition_sizes_witness :
  length (decompose_segment_query "microsoft revenue by segment"
            (classification_info_of "microsoft revenue by segment"
               SEGMENT_ANALYSIS)) = 2%nat.
Proof.
  destruct (decomposition_sizes "microsoft revenue by segment"
              (classification_info_of "microsoft revenue by segment"
                 SEGMENT_ANALYSIS)) as (_ & _ & _ & H).
  rewrite H; [reflexivity|]. vm_compute. discriminate.
Defined.





(** ** The classifier *)




Lemma upper_lower_char c : Py.upper_char (Py.lower_char c) = Py.upper_char c.
Proof.
  destruct c as [[] [] [] [] [] [] [] []]; reflexivity.
Qed.

Lemma lower_upper_char c : Py.lower_char (Py.upper_char c) = Py.lower_char c.
Proof.
  destruct c as [[] [] [] [] [] [] [] []]; reflexivity.
Qed.

Lemma upper_lower s : Py.upper (Py.lower s) = Py.upper s.
Proof.
  induction s as [|c s IH]; [done|]. unfold Py.upper, Py.lower in *. simpl.
  by rewrite upper_lower_char, IH.
Qed.

Lemma lower_upper s : Py.lower (Py.upper s) = Py.lower s.
Proof.
  induction s as [|c s IH]; [done|]. unfold Py.upper, Py.lower in *. simpl.
  by rewrite lower_upper_char, IH.
Qed.

Lemma lower_value t : Py.lower (value t) = value t.
Proof. by destruct t. Qed.

Lemma find_category t :
  List.find (λ query_type,
      bool_decide (Py.upper (value query_type) = Py.upper (value t)))
    all_query_types = Some t.
Proof. by destruct t. Qed.

(** X13: reading the category answered by the model.  The answer is
    stripped and compared without regard to case with the five category
    values: when it is the value of a type, that type is the result; when it
    is the value of no type, the result is complex_multi_aspect. *)
Theorem llm_category_recognised (w : World) (query text : string) :
  w_llm_classify w query = Ret text →
  (∀ t, Py.lower (Py.strip text) = value t →
        classify_with_llm w query
        = ([EvGenerate "classification" query], Ret t))
  ∧ ((∀ t, Py.lower (Py.strip text) ≠ value t) →
     classify_with_llm w query
     = ([EvGenerate "classification" query], Ret COMPLEX_MULTI_ASPECT)).
Proof.
  intros Hllm. unfold classify_with_llm, try_except.
  rewrite Hllm, bind_call_ret. cbn [fst snd mret M_ret].
  split.
  - intros t Ht.
    assert (Py.upper (Py.strip text) = Py.upper (value t)) as ->
      by (by rewrite <-Ht, upper_lower).
    by rewrite find_category.
  - intros Hnone.
    destruct (List.find _ all_query_types) as [t|] eqn:Hfind; [|done].
    apply List.find_some in Hfind as [_ Heq%bool_decide_eq_true].
    exfalso. apply (Hnone t).
    by rewrite <-(lower_upper (Py.strip text)), <-Heq, lower_upper, lower_value.
Qed.

Lemma llm_category_recognised_witness :
  classify_with_llm
    {| w_search := w_search sample_world;
       w_llm_classify := λ _, Ret "  Segment_Analysis ";
       w_llm_decompose := w_llm_decompose sample_world;
       w_llm_response := w_llm_response sample_world |}
    "Where does the money come from?"
  = ([EvGenerate "classification" "Where does the money come from?"],
     Ret SEGMENT_ANALYSIS).
Proof.
  refine (proj1 (llm_category_recognised _ _ "  Segment_Analysis " _)
            SEGMENT_ANALYSIS _); reflexivity.
Defined.

(** X14: the extracted years are in ascending order, without repetition,
    all between 2020 and 2025, so there are at most six of them. *)
Theorem extract_years_sorted (query : string) :
  StronglySorted Z.le (extract_years query)
  ∧ NoDup (extract_years query)
  ∧ (∀ y, y ∈ extract_years query → 2020 ≤ y ≤ 2025)
  ∧ (length (extract_years query) ≤ 6)%nat.
Proof.
  unfold extract_years. cbv zeta.
  set (years := List.filter _ _).
  assert (Hperm := merge_sort_Permutation Z.le (remove_dups years)).
  assert (Hnd : NoDup (merge_sort Z.le (remove_dups years)))
    by (rewrite Hperm; apply NoDup_remove_dups).
  assert (Hrange : ∀ y, y ∈ merge_sort Z.le (remove_dups years) →
                        2020 ≤ y ≤ 2025).
  { intros y. rewrite Hperm, elem_of_remove_dups. unfold years.
    intros [_ Hy]%list_elem_of_In%List.filter_In.
    apply andb_prop in Hy as [?%Z.leb_le ?%Z.leb_le]. lia. }
  split; [apply StronglySorted_merge_sort; apply _|].
  split; [done|]. split; [done|].
  assert (Hsub : merge_sort Z.le (remove_dups years) ⊆ seqZ 2020 6).
  { intros y Hy. apply elem_of_seqZ. specialize (Hrange y Hy). lia. }
  pose proof (submseteq_length _ _ (NoDup_submseteq _ _ Hnd Hsub)) as Hlen.
  by rewrite length_seqZ in Hlen.
Qed.

Lemma startswith_shorter p x s :
  Py.startswith (p +:+ x) s = true → Py.startswith p s = true.
Proof.
  revert s. induction p as [|c p IH]; intros s; [done|].
  rewrite append_cons. destruct s as [|d s]; simpl; [done|].
  intros [Hc Hp]%andb_prop. rewrite Hc. by apply IH.
Qed.

(** A string that contains [p +:+ x] contains [p]. *)
Lemma contains_shorter p x s :
  Py.contains (p +:+ x) s = true → Py.contains p s = true.
Proof.
  induction s as [|c s IH]; simpl.
  - rewrite !orb_false_r. apply startswith_shorter.
  - intros [H|H]%orb_prop; apply orb_true_intro;
      [left; by eapply startswith_shorter|right; by apply IH].
Qed.

Lemma extract_fold_flags query (table : list (string * list string)) acc :
  foldl (λ companies '(canonical_name, aliases),
    foldl (λ companies alias,
      if Py.contains alias query
      then if bool_decide (canonical_name ∉ companies)
           then companies ++ [Py.upper canonical_name]
           else companies
      else companies) companies aliases) acc table
  = foldl (λ companies '(canonical_name, flags),
      foldl (λ companies (occurs : bool),
        if occurs
        then if bool_decide (canonical_name ∉ companies)
             then companies ++ [Py.upper canonical_name]
             else companies
        else companies) companies flags) acc
      (List.map (λ '(canonical_name, aliases),
         (canonical_name,
          List.map (λ alias, Py.contains alias query) aliases)) table).
Proof.
  revert acc. induction table as [|[c aliases] table IH]; intros acc; [done|].
  cbn [List.map foldl]. rewrite <-IH. f_equal.
  clear IH. revert acc.
  induction aliases as [|a aliases IH]; intros acc; [done|].
  cbn [List.map foldl]. by rewrite IH.
Qed.

Lemma extract_companies_flags query :
  extract_companies query = extract_companies_flagged (alias_flags query).
Proof. apply extract_fold_flags. Qed.

(** The properties of the loop for every outcome of the seven tests. *)
Lemma extract_companies_flagged_cases (g1 g2 g3 m1 m2 n1 n2 : bool) :
  let l := extract_companies_flagged
             [("google", [g1; g2; g3]); ("microsoft", [m1; m2]);
              ("nvidia", [n1; n2])] in
  names_not_tickers l = true
  ∧ length l = length (List.filter id [g1; g2; g3; m1; m2; n1; n2])
  ∧ (g1 = true → g2 = true → ∃ rest, l = "GOOGLE" :: "GOOGLE" :: rest).
Proof.
  destruct g1, g2, g3, m1, m2, n1, n2; vm_compute;
    (split; [reflexivity|split; [reflexivity|]]); intros; try discriminate;
    by eexists.
Qed.

Lemma length_filter_map {A B} (f : A → B) (p : B → bool) (l : list A) :
  length (List.filter p (List.map f l)) = length (List.filter (λ x, p (f x)) l).
Proof. induction l as [|x l IH]; simpl; [done|]. destruct (p (f x)); simpl; by rewrite IH. Qed.

(** X15: what [_extract_companies] returns.  Every element is an
    upper-cased canonical name (GOOGLE, MICROSOFT, NVIDIA), never one of
    the tickers GOOGL, MSFT, NVDA used as default company set; the
    membership test of the loop never succeeds, so there is one element per
    alias occurring in the query: a query that mentions google yields
    GOOGLE at least twice. *)
Theorem extract_companies_names (query : string) :
  names_not_tickers (extract_companies query) = true
  ∧ length (extract_companies query)
    = length (List.filter (λ alias, Py.contains alias query) all_aliases)
  ∧ (Py.contains "google" query = true →
     ∃ rest, extract_companies query = "GOOGLE" :: "GOOGLE" :: rest).
Proof.
  pose proof (contains_shorter "googl" "e" query) as Hgoogl.
  change ("googl" +:+ "e") with "google" in Hgoogl.
  rewrite extract_companies_flags.
  assert (Hlen :
    length (List.filter (λ alias, Py.contains alias query) all_aliases)
    = length (List.filter id
                (List.map (λ alias, Py.contains alias query) all_aliases)))
    by (symmetry; exact (length_filter_map _ id all_aliases)).
  rewrite Hlen. clear Hlen.
  change (alias_flags query)
    with [("google", [Py.contains "google" query; Py.contains "googl" query;
                      Py.contains "alphabet" query]);
          ("microsoft", [Py.contains "microsoft" query;
                         Py.contains "msft" query]);
          ("nvidia", [Py.contains "nvidia" query; Py.contains "nvda" query])].
  change (List.map (λ alias, Py.contains alias query) all_aliases)
    with [Py.contains "google" query; Py.contains "googl" query;
          Py.contains "alphabet" query; Py.contains "microsoft" query;
          Py.contains "msft" query; Py.contains "nvidia" query;
          Py.contains "nvda" query].
  destruct (extract_companies_flagged_cases
              (Py.contains "google" query) (Py.contains "googl" query)
              (Py.contains "alphabet" query) (Py.contains "microsoft" query)
              (Py.contains "msft" query) (Py.contains "nvidia" query)
              (Py.contains "nvda" query)) as (H1 & H2 & H3).
  split; [exact H1|]. split; [exact H2|].
  intros Hg. exact (H3 Hg (Hgoogl Hg)).
Qed.

Lemma extract_companies_names_witness :
  ∃ rest,
    extract_companies (Py.lower "What was Google's revenue in 2023?")
    = "GOOGLE" :: "GOOGLE" :: rest.
Proof.
  apply (extract_companies_names
           (Py.lower "What was Google's revenue in 2023?")).
  vm_compute. reflexivity.
Defined.

(** ** The query processor: acceptance and idempotence *)

(** X16: [validate_query] accepts a query exactly when it has at least 5
    characters after stripping, at most 500 characters, and a financial
    keyword; it then answers "Valid query", and a rejection carries one of
    the three rejection messages. *)
Theorem validate_query_accepts (query : string) :
  ((validate_query query).1 = true
   ↔ 5 ≤ Py.len (Py.strip query) ∧ Py.len query ≤ 500
     ∧ has_financial_keyword query = true)
  ∧ ((validate_query query).1 = true → (validate_query query).2 = msg_valid)
  ∧ ((validate_query query).1 = false →
     (validate_query query).2
       ∈ [msg_too_short; msg_too_long; msg_not_financial]).
Proof.
  unfold validate_query.
  destruct (Py.len (Py.strip query) <? 5) eqn:E1;
    [|destruct (500 <? Py.len query) eqn:E2;
      [|destruct (has_financial_keyword query) eqn:E3]]; simpl.
  - split; [split; [done|lia]|]. split; [done|]. intros _. set_solver.
  - split; [split; [done|lia]|]. split; [done|]. intros _. set_solver.
  - split; [split; [intros _; lia|done]|]. split; [done|done].
  - split; [split; [done|intros (_&_&?); done]|]. split; [done|].
    intros _. set_solver.
Qed.

Lemma validate_query_accepts_witness :
  (validate_query "What was Microsoft's total revenue in 2023?").2 = msg_valid.
Proof.
  apply (validate_query_accepts "What was Microsoft's total revenue in 2023?").
  vm_compute. reflexivity.
Defined.

Lemma canonical_word_idempotent w :
  canonical_word (canonical_word w) = canonical_word w.
Proof.
  destruct (decide (Py.lower w = "google")) as [Hg|Hg].
  { unfold canonical_word at 2 3. by rewrite !bool_decide_eq_true_2. }
  destruct (decide (Py.lower w = "microsoft")) as [Hm|Hm].
  { unfold canonical_word at 2 3.
    by rewrite !(bool_decide_eq_false_2 (Py.lower w = "google")),
               !bool_decide_eq_true_2. }
  destruct (decide (Py.lower w = "nvidia")) as [Hn|Hn].
  { unfold canonical_word at 2 3.
    by rewrite !(bool_decide_eq_false_2 (Py.lower w = "google")),
               !(bool_decide_eq_false_2 (Py.lower w = "microsoft")),
               !bool_decide_eq_true_2. }
  assert (H : canonical_word w = w)
    by (unfold canonical_word; by rewrite !bool_decide_eq_false_2).
  by rewrite !H.
Qed.

(** X17: preprocessing is idempotent, and the words of a preprocessed query
    are the rewritten words of the query: a second pass changes nothing. *)
Theorem preprocess_query_idempotent (query : string) :
  preprocess_query (preprocess_query query) = preprocess_query query.
Proof.
  unfold preprocess_query. rewrite !preprocess_query_unfold.
  rewrite split_join.
  - rewrite <-list_fmap_compose. f_equal. apply list_fmap_ext.
    intros _ w _. apply canonical_word_idempotent.
  - apply Forall_fmap. eapply Forall_impl; [apply split_words|].
    apply canonical_word_is_a_word.
Qed.

(** ** The synthesizer: excerpts and context *)

Lemma length_take_string n s : (String.length (Py.take n s) ≤ n)%nat.
Proof.
  revert s. induction n as [|n IH]; intros [|c s]; simpl; try lia.
  specialize (IH s). lia.
Qed.

Lemma truncate_len n s : Py.len (truncate n s) ≤ Z.of_nat n + 3.
Proof.
  unfold truncate, Py.len.
  destruct (Z.of_nat n <? Z.of_nat (String.length s)) eqn:E.
  - rewrite length_append. pose proof (length_take_string n s). simpl. lia.
  - apply Z.ltb_ge in E. lia.
Qed.

Lemma truncate_short n s : Py.len s ≤ Z.of_nat n → truncate n s = s.
Proof.
  intros H. unfold truncate.
  assert (E : (Z.of_nat n <? Py.len s) = false) by (apply Z.ltb_ge; lia).
  by rewrite E.
Qed.

Lemma split_sentences_go_length in_run text :
  Forall (λ s, (String.length s ≤ String.length text)%nat)
         (split_sentences_go in_run text).
Proof.
  revert in_run. induction text as [|c text IH]; intros in_run; simpl.
  - by repeat constructor.
  - assert (Hweak : ∀ b,
      Forall (λ s, (String.length s ≤ S (String.length text))%nat)
             (split_sentences_go b text)).
    { intros b. eapply Forall_impl; [apply (IH b)|].
      intros s Hs. simpl in Hs. lia. }
    destruct (is_sentence_end c).
    + destruct in_run; [apply Hweak|].
      constructor; [simpl; lia|apply Hweak].
    + specialize (IH false). specialize (Hweak false).
      destruct (split_sentences_go false text) as [|w ws].
      * constructor; [simpl; lia|constructor].
      * apply Forall_cons in IH as [Hw _].
        apply Forall_cons in Hweak as [_ Hws].
        constructor; [simpl; lia|exact Hws].
Qed.

Lemma excerpt_fold_short query_terms sentences st :
  Forall (λ s, Py.len s ≤ 50) sentences →
  foldl (λ '(best_sentence, max_score) sentence,
      if 50 <? Py.len sentence
      then
        let sentence_lower := Py.lower sentence in
        let score :=
          Z.of_nat (length (List.filter (λ term,
            Py.contains term sentence_lower) query_terms)) in
        if max_score <? score then (Py.strip sentence, score)
        else (best_sentence, max_score)
      else (best_sentence, max_score)) st sentences = st.
Proof.
  intros H. revert st.
  induction H as [|s l Hs _ IH]; intros [best score]; [done|].
  cbn [foldl].
  assert ((50 <? Py.len s) = false) as -> by (apply Z.ltb_ge; lia).
  apply IH.
Qed.

(** X18: an excerpt has at most 203 characters (200 and the ellipsis); a
    text of at most 50 characters has no sentence long enough to be chosen
    and is its own excerpt, whatever the query. *)
Theorem excerpt_bounds (text query : string) :
  Py.len (extract_meaningful_excerpt text query) ≤ 203
  ∧ (Py.len text ≤ 50 → extract_meaningful_excerpt text query = text).
Proof.
  unfold extract_meaningful_excerpt. cbv zeta. split.
  - destruct (foldl _ _ _) as [best score].
    destruct (negb _); apply (truncate_len 200).
  - intros Hshort. rewrite excerpt_fold_short.
    + simpl. apply truncate_short. simpl. lia.
    + eapply Forall_impl; [apply split_sentences_go_length|].
      unfold Py.len in *. simpl. intros. lia.
Qed.

Lemma excerpt_bounds_witness :
  extract_meaningful_excerpt "Revenue rose 7%. Margins fell." "revenue growth"
  = "Revenue rose 7%. Margins fell.".
Proof.
  apply (excerpt_bounds "Revenue rose 7%. Margins fell." "revenue growth").
  vm_compute. discriminate.
Defined.

(** X19: a sub-query without evidence adds nothing to the context given to
    the model, and when no sub-query has evidence the context is empty. *)
Theorem prepare_context_skips_empty
    (before after : list (string * list Hit)) (sub_query : string) :
  prepare_context (before ++ (sub_query, []) :: after)
  = prepare_context (before ++ after)
  ∧ (Forall (λ entry, entry.2 = []) before →
     prepare_context before = EmptyString).
Proof.
  unfold prepare_context. cbv zeta. split.
  - by rewrite !List.flat_map_app.
  - intros Hall.
    assert (List.flat_map (λ '(sub_query, results),
              match results with
              | [] => []
              | _ =>
                  ("Results for '" +:+ sub_query +:+ "':") ::
                  imap (λ i result,
                    "  [" +:+ pretty (Z.of_nat i + 1) +:+ "] "
                    +:+ company result +:+ " " +:+ pretty (year result)
                    +:+ ": " +:+ truncate 500 (text result)) (take 3 results)
                  ++ [EmptyString]
              end) before = []) as ->; [|done].
    induction Hall as [|[sq results] l Hr _ IH]; [done|].
    simpl in Hr. subst results. exact IH.
Qed.

Lemma prepare_context_skips_empty_witness :
  prepare_context [("MSFT revenue 2023", []); ("GOOGL revenue 2023", [])]
  = EmptyString.
Proof.
  apply (prepare_context_skips_empty
           [("MSFT revenue 2023", []); ("GOOGL revenue 2023", [])] []
           "NVDA revenue 2023").
  repeat constructor.
Defined.

(** ** Reading the sub-queries answered by the model *)

Lemma digit_facts c :
  Py.is_digit c = true →
  Py.is_space c = false ∧ c ≠ "010"%char ∧ c ≠ "S"%char ∧ c ≠ "."%char.
Proof.
  destruct c as [[] [] [] [] [] [] [] []]; vm_compute; intros H;
    try discriminate H; repeat split; discriminate.
Qed.

Lemma lstrip_id s : Py.no_leading_space s = true → Py.lstrip s = s.
Proof.
  destruct s as [|c s]; [done|]. simpl. intros H%negb_true_iff. by rewrite H.
Qed.

Lemma strip_trimmed s : trimmed s = true → Py.strip s = s.
Proof.
  intros [Hl Hr]%andb_prop. unfold Py.strip, Py.rstrip.
  by rewrite (lstrip_id _ Hr), rev_involutive, (lstrip_id _ Hl).
Qed.

Lemma no_leading_space_app a b :
  a ≠ EmptyString → Py.no_leading_space (a +:+ b) = Py.no_leading_space a.
Proof. by destruct a. Qed.

Lemma rev_nonempty s : s ≠ EmptyString → String.rev s ≠ EmptyString.
Proof.
  intros Hs Hr. apply (f_equal String.length) in Hr.
  rewrite length_rev in Hr. by destruct s.
Qed.

(** A string that starts like [a] and ends like [b] is trimmed. *)
Lemma trimmed_between a x b :
  a ≠ EmptyString → b ≠ EmptyString →
  Py.no_leading_space a = true →
  Py.no_leading_space (String.rev b) = true →
  trimmed (a +:+ x +:+ b) = true.
Proof.
  intros Ha Hb Hla Hrb. unfold trimmed.
  rewrite no_leading_space_app, Hla by done.
  rewrite <-append_assoc, rev_append.
  rewrite no_leading_space_app by by apply rev_nonempty.
  by rewrite Hrb.
Qed.

Lemma has_char_append ch s t :
  has_char ch (s +:+ t) = has_char ch s || has_char ch t.
Proof.
  induction s as [|c s IH]; [done|].
  rewrite append_cons. simpl. by rewrite IH, orb_assoc.
Qed.

Lemma split_on_no_sep sep s :
  has_char sep s = false → Py.split_on sep s = [s].
Proof.
  induction s as [|c s IH]; [done|]. simpl.
  intros [Hc Hs]%orb_false_elim. rewrite Hc, (IH Hs). reflexivity.
Qed.

Lemma split_on_first sep s rest :
  has_char sep s = false →
  Py.split_on sep (s +:+ String sep rest) = s :: Py.split_on sep rest.
Proof.
  induction s as [|c s IH]; intros Hs.
  - rewrite append_nil_l. simpl. by rewrite bool_decide_eq_true_2.
  - rewrite append_cons. simpl in *.
    apply orb_false_elim in Hs as [Hc Hs]. rewrite Hc, (IH Hs). reflexivity.
Qed.

(** Splitting a join on the separator gives the pieces back. *)
Lemma split_on_join sep ls :
  ls ≠ [] → Forall (λ l, has_char sep l = false) ls →
  Py.split_on sep (Py.join (String sep EmptyString) ls) = ls.
Proof.
  intros Hne Hls. induction Hls as [|l ls Hl Hls IH]; [done|].
  destruct ls as [|l' ls].
  - by apply split_on_no_sep.
  - rewrite join_cons_cons.
    change (String sep EmptyString +:+ Py.join (String sep EmptyString) (l' :: ls))
      with (String sep (Py.join (String sep EmptyString) (l' :: ls))).
    rewrite split_on_first by done. by rewrite IH.
Qed.

Lemma all_digits_facts d :
  d ≠ EmptyString → all_digits d = true →
  Py.no_leading_space d = true
  ∧ has_char "010" d = false
  ∧ Py.startswith "Sub-queries" d = false
  ∧ ∃ c d', d = String c d' ∧ Py.is_digit c = true.
Proof.
  intros Hne Hd. destruct d as [|c d]; [done|]. simpl in Hd.
  apply andb_prop in Hd as [Hc Hd].
  destruct (digit_facts c Hc) as (Hsp & Hnl & HS & _).
  split; [simpl; by rewrite Hsp|]. split.
  - simpl. rewrite bool_decide_eq_false_2 by done. simpl.
    clear Hne Hc Hsp Hnl HS. induction d as [|c' d IH]; [done|]. simpl in *.
    apply andb_prop in Hd as [Hc' Hd].
    destruct (digit_facts c' Hc') as (_ & Hnl & _).
    by rewrite bool_decide_eq_false_2, IH.
  - split; [|by eauto]. simpl.
    rewrite bool_decide_eq_false_2; [done|]. intros ?. by apply HS.
Qed.

Lemma drop_digits_dot d rest :
  all_digits d = true →
  drop_digits (d +:+ String "." rest) = String "." rest.
Proof.
  induction d as [|c d IH]; intros Hd; [done|].
  rewrite append_cons. simpl in *.
  apply andb_prop in Hd as [Hc Hd]. by rewrite Hc, IH.
Qed.

(** The fate of one numbered line in the loop of the parser. *)
Lemma numbered_line_facts item :
  numbered_item item = true →
  numbered_line item ≠ EmptyString
  ∧ trimmed (numbered_line item) = true
  ∧ has_char "010" (numbered_line item) = false
  ∧ Py.startswith "Sub-queries" (numbered_line item) = false
  ∧ Py.strip (strip_dash (strip_numbering (numbered_line item))) = item.2.
Proof.
  destruct item as [d q]. unfold numbered_item, clean_sub_query, numbered_line.
  cbn [fst snd].
  intros [[Hd Hdig]%andb_prop [[[Hq Htrim]%andb_prop Hnl%negb_true_iff]%andb_prop
            Hdash%negb_true_iff]%andb_prop]%andb_prop.
  apply negb_true_iff, bool_decide_eq_false in Hd, Hq.
  destruct (all_digits_facts d Hd Hdig) as (Hlead & Hdnl & HdS & c & d' & -> & Hc).
  pose proof Htrim as [Hql Hqr]%andb_prop.
  split; [by rewrite append_cons|].
  split; [apply trimmed_between; assumption|]. split.
  { rewrite !has_char_append, Hdnl, Hnl. reflexivity. }
  split.
  { destruct (digit_facts c Hc) as (_ & _ & HS & _).
    rewrite append_cons. simpl.
    rewrite bool_decide_eq_false_2; [done|]. intros ?. by apply HS. }
  unfold strip_numbering. rewrite append_cons, Hc.
  rewrite <-append_cons.
  change (". " +:+ q) with (String "." (String " " q)).
  rewrite (drop_digits_dot (String c d') _ Hdig).
  assert (Hlq : Py.lstrip (String " " q) = q)
    by (simpl; by apply lstrip_id).
  rewrite Hlq.
  assert (Hsd : strip_dash q = q).
  { destruct q as [|c' q]; [done|]. simpl in Hdash. unfold strip_dash.
    destruct c' as [[] [] [] [] [] [] [] []]; try done. }
  rewrite Hsd. by apply strip_trimmed.
Qed.

Lemma join_lines_trimmed ls :
  Forall (λ l, l ≠ EmptyString ∧ trimmed l = true) ls →
  trimmed (Py.join (String "010" EmptyString) ls) = true.
Proof.
  induction 1 as [|l ls [Hne Hl] Hls IH]; [done|].
  destruct ls as [|l' ls]; [done|].
  rewrite join_cons_cons.
  apply andb_prop in Hl as [Hll _].
  apply andb_prop in IH as [_ IHr].
  apply trimmed_between; try done.
  apply Forall_cons in Hls as [[Hne' _] _].
  destruct ls; [done|]. rewrite join_cons_cons. by destruct l'.
Qed.

Lemma parse_lines lines items :
  Forall2 (λ line (item : string * string),
    Py.strip line = line ∧ line ≠ EmptyString
    ∧ Py.startswith "Sub-queries" line = false
    ∧ Py.strip (strip_dash (strip_numbering line)) = item.2) lines items →
  List.flat_map (λ line,
    let line := Py.strip line in
    if negb (bool_decide (line = EmptyString))
       && negb (Py.startswith "Sub-queries" line)
    then [Py.strip (strip_dash (strip_numbering line))]
    else []) lines = items.*2.
Proof.
  intros H. cbv zeta.
  induction H as [|line item lines items (Hs & Hne & HS & Hq) _ IH]; [done|].
  cbn [List.flat_map].
  rewrite Hs, HS, bool_decide_eq_false_2 by done. cbn [negb andb].
  rewrite Hq, IH, fmap_cons. reflexivity.
Qed.

(** X20: a numbered list is read back exactly.  When the model answers one
    line per sub-query, each made of digits, a dot, a space and a clean
    sub-query (not empty, on one line, without white space around it and
    without a leading dash), the complex decomposition is the list of these
    sub-queries, in order. *)
Theorem numbered_list_parsed (w : World) (query : string)
    (info : ClassificationInfo) (items : list (string * string)) :
  items ≠ [] →
  Forall (λ item, numbered_item item = true) items →
  w_llm_decompose w query (default [] (ci_companies info))
    (default [] (ci_years info)) (default [] (ci_metrics info))
  = Ret (Py.join (String "010" EmptyString) (numbered_line <$> items)) →
  parse_sub_queries
    (Py.join (String "010" EmptyString) (numbered_line <$> items)) = items.*2
  ∧ decompose_query w query COMPLEX_MULTI_ASPECT info
    = ([EvGenerate "decomposition" query], Ret items.*2).
Proof.
  intros Hne Hitems Hllm.
  assert (Hfacts : Forall (λ item,
    numbered_line item ≠ EmptyString
    ∧ trimmed (numbered_line item) = true
    ∧ has_char "010" (numbered_line item) = false
    ∧ Py.startswith "Sub-queries" (numbered_line item) = false
    ∧ Py.strip (strip_dash (strip_numbering (numbered_line item))) = item.2)
    items).
  { eapply Forall_impl; [exact Hitems|]. apply numbered_line_facts. }
  assert (Hparse : parse_sub_queries
    (Py.join (String "010" EmptyString) (numbered_line <$> items)) = items.*2).
  { unfold parse_sub_queries. rewrite split_on_join.
    - apply parse_lines. apply Forall2_fmap_l, Forall_Forall2_diag.
      eapply Forall_impl; [exact Hfacts|].
      intros item (H1 & H2 & _ & H4 & H5).
      split; [by apply strip_trimmed|done].
    - by destruct items.
    - apply Forall_fmap. eapply Forall_impl; [exact Hfacts|].
      by intros item (_ & _ & H3 & _). }
  split; [exact Hparse|].
  unfold decompose_query, decompose_complex_query, try_except.
  rewrite Hllm, bind_call_ret. cbn [fst snd mret M_ret].
  rewrite strip_trimmed.
  - rewrite Hparse. by destruct items.
  - apply join_lines_trimmed, Forall_fmap.
    eapply Forall_impl; [exact Hfacts|]. by intros item (H1 & H2 & _).
Qed.

Lemma numbered_list_parsed_witness :
  decompose_query listing_world "How do Microsoft and Google compare?"
    COMPLEX_MULTI_ASPECT
    (classification_info_of "How do Microsoft and Google compare?"
       COMPLEX_MULTI_ASPECT)
  = ([EvGenerate "decomposition" "How do Microsoft and Google compare?"],
     Ret ["MSFT revenue 2023"; "GOOGL revenue 2023"]).
Proof.
  refine (proj2 (numbered_list_parsed listing_world
    "How do Microsoft and Google compare?"
    (classification_info_of "How do Microsoft and Google compare?"
       COMPLEX_MULTI_ASPECT)
    [("1", "MSFT revenue 2023"); ("2", "GOOGL revenue 2023")] _ _ _)).
  - discriminate.
  - repeat constructor.
  - reflexivity.
Defined.
